(** * Financial calculator: a shallow embedding of [finance_calculators.py]

    The program reads lines from standard input, validates them, and feeds
    them to three arithmetic routines (simple interest, compound interest,
    bond repayment).

    Two number models are used.

    - [pyfloat] carries a finite value as a real number, beside the IEEE
      special values (the two infinities and NaN) that [float()] produces
      from the texts "inf" and "nan".  It serves the readers, the handlers
      and the menu loop, whose control flow depends on the order of a value
      with zero, on the special values and on the truncation [int()] only.
      On finite values its arithmetic is that of the real numbers: rounding,
      overflow and underflow are not part of it, and the value that a
      calculator returns after an operation that rounds is not stated in
      this model.

    - [Binary64] carries the calculators over the binary64 floats of
      IEEE 754, every operation rounded to nearest, ties to even, with the
      exceptions that Python raises.  The C library's [pow], whose value on
      ordinary arguments no standard fixes bit for bit, is a parameter of
      this model.  What is stated about the values of the compound interest
      and of the bond repayment is stated there.

    Exceptions are modelled by the [outcome] type. *)

From Stdlib Require Import Reals Lra Lia ZArith List Bool Ascii String Floats.
Import ListNotations.

Local Open Scope R_scope.

(** ** Exceptions and outcomes *)

Inductive exn : Set :=
| EOFError
| ValueError
| ZeroDivisionError
| OverflowError.

Inductive outcome (A : Type) : Type :=
| Return (a : A)
| Raise (e : exn).

Arguments Return {A} a.
Arguments Raise {A} e.

Definition bind {A B : Type} (m : outcome A) (k : A -> outcome B) : outcome B :=
  match m with
  | Return a => k a
  | Raise e => Raise e
  end.

Notation "x <- m ;; k" := (bind m (fun x => k))
  (at level 61, m at next level, right associativity).

(** ** Decidable comparisons on the reals, as booleans *)

Definition Reqb (x y : R) : bool := if Req_dec_T x y then true else false.
Definition Rleb (x y : R) : bool := if Rle_dec x y then true else false.
Definition Rltb (x y : R) : bool := if Rlt_dec x y then true else false.

(** ** Python floats *)

Inductive pyfloat : Type :=
| Fin (x : R)
| Inf (neg : bool)
| NaN.

Module Float.

Definition opp (a : pyfloat) : pyfloat :=
  match a with
  | Fin x => Fin (- x)
  | Inf s => Inf (negb s)
  | NaN => NaN
  end.

Definition add (a b : pyfloat) : pyfloat :=
  match a, b with
  | NaN, _ | _, NaN => NaN
  | Inf s, Inf t => if Bool.eqb s t then Inf s else NaN
  | Inf s, Fin _ => Inf s
  | Fin _, Inf t => Inf t
  | Fin x, Fin y => Fin (x + y)
  end.

Definition sub (a b : pyfloat) : pyfloat := add a (opp b).

Definition mul (a b : pyfloat) : pyfloat :=
  match a, b with
  | NaN, _ | _, NaN => NaN
  | Inf s, Inf t => Inf (xorb s t)
  | Inf s, Fin y => if Reqb y 0 then NaN else Inf (xorb s (Rltb y 0))
  | Fin x, Inf t => if Reqb x 0 then NaN else Inf (xorb (Rltb x 0) t)
  | Fin x, Fin y => Fin (x * y)
  end.

(** [a / b]: Python raises [ZeroDivisionError] whenever the divisor is
    zero, whatever the dividend is. *)
Definition div (a b : pyfloat) : outcome pyfloat :=
  match b with
  | Fin y =>
      if Reqb y 0 then Raise ZeroDivisionError
      else match a with
           | Fin x => Return (Fin (x / y))
           | Inf s => Return (Inf (xorb s (Rltb y 0)))
           | NaN => Return NaN
           end
  | Inf _ =>
      match a with
      | Fin _ => Return (Fin 0)
      | _ => Return NaN
      end
  | NaN => Return NaN
  end.

(** [a <= b]: false as soon as one side is NaN. *)
Definition le (a b : pyfloat) : bool :=
  match a, b with
  | NaN, _ | _, NaN => false
  | Inf true, _ => true
  | _, Inf false => true
  | Inf false, _ => false
  | _, Inf true => false
  | Fin x, Fin y => Rleb x y
  end.

(** [a > b]. *)
Definition gt (a b : pyfloat) : bool :=
  match a, b with
  | NaN, _ | _, NaN => false
  | Inf true, _ => false
  | _, Inf false => false
  | Inf false, _ => true
  | _, Inf true => true
  | Fin x, Fin y => Rltb y x
  end.

(** Conversion of a Python [int] to [float]. *)
Definition of_int (z : Z) : pyfloat := Fin (IZR z).

(** Truncation toward zero of a real number. *)
Definition trunc (x : R) : Z :=
  if Rle_dec 0 x then Int_part x else (- Int_part (- x))%Z.

(** [int(a)]: truncation toward zero; NaN and the infinities raise. *)
Definition to_int (a : pyfloat) : outcome Z :=
  match a with
  | Fin x => Return (trunc x)
  | Inf _ => Raise OverflowError
  | NaN => Raise ValueError
  end.

End Float.

(** ** [math.pow]

    A function of the standard library, modelled after its documented
    behaviour: special values are settled first (NaN and infinite
    arguments, with [pow(x, 0) = 1] and [pow(1, y) = 1] whatever the other
    argument is), finite arguments go to the real power, and a result that
    is not a number raises [ValueError].  The real power is never out of
    range: the [OverflowError] of [math.pow] belongs to
    [Binary64.math_pow] below. *)

Module Math.

Definition is_integer (y : R) : bool := Reqb (frac_part y) 0.

Definition is_odd_integer (y : R) : bool :=
  is_integer y && Z.odd (Int_part y).

(** Both arguments finite.  A positive base takes the real power
    [exp (y * ln x)]; a zero base with a negative exponent and a negative
    base with a non-integer exponent are domain errors. *)
Definition finite_pow (x y : R) : outcome pyfloat :=
  if Rltb 0 x then Return (Fin (Rpower x y))
  else if Reqb y 0 then Return (Fin 1)
  else if Reqb x 0 then
    (if Rltb 0 y then Return (Fin 0) else Raise ValueError)
  else
    (if is_integer y then Return (Fin (powerRZ x (Int_part y)))
     else Raise ValueError).

Definition pow (x y : pyfloat) : outcome pyfloat :=
  match x, y with
  | Fin x', Fin y' => finite_pow x' y'
  | NaN, Fin y' => Return (if Reqb y' 0 then Fin 1 else NaN)
  | NaN, _ => Return NaN
  | Fin x', NaN => Return (if Reqb x' 1 then Fin 1 else NaN)
  | Inf _, NaN => Return NaN
  | Inf s, Fin y' =>
      if Rltb 0 y' then Return (if is_odd_integer y' then Inf s else Inf false)
      else if Reqb y' 0 then Return (Fin 1)
      else Return (Fin 0)
  | Inf _, Inf t => Return (if t then Fin 0 else Inf false)
  | Fin x', Inf t =>
      if Reqb (Rabs x') 1 then Return (Fin 1)
      else if negb t && Rltb 1 (Rabs x') then Return (Inf false)
      else if t && Rltb (Rabs x') 1 then Return (Inf false)
      else Return (Fin 0)
  end.

End Math.

(** ** The calculators

    Over [pyfloat], as the handlers call them.  Their binary64 counterparts
    are in [Binary64] below. *)

Definition calculate_simple_interest (principal rate years : pyfloat)
  : outcome pyfloat :=
  r <- Float.div rate (Fin 100) ;;
  Return (Float.mul principal (Float.add (Fin 1) (Float.mul r years))).

Definition calculate_compound_interest (principal rate years : pyfloat)
  : outcome pyfloat :=
  r <- Float.div rate (Fin 100) ;;
  p <- Math.pow (Float.add (Fin 1) r) years ;;
  Return (Float.mul principal p).

Definition calculate_bond_repayment (house_value annual_rate : pyfloat)
  (months : Z) : outcome pyfloat :=
  r <- Float.div annual_rate (Fin 100) ;;
  monthly_rate <- Float.div r (Fin 12) ;;
  p <- Math.pow (Float.add (Fin 1) monthly_rate) (Float.of_int (- months)) ;;
  let denom := Float.sub (Fin 1) p in
  let repayment := Float.div (Float.mul monthly_rate house_value) denom in
  repayment.

(** ** Text: [str.strip], the [in] test and the [float()] constructor

    Lines are ASCII texts.  These are built-ins of the language, modelled
    after the language reference. *)

Module Text.

Local Open Scope N_scope.

Definition code (c : ascii) : N := N_of_ascii c.

(** [str.isspace] on the ASCII range. *)
Definition is_space (c : ascii) : bool :=
  ((9 <=? code c) && (code c <=? 13))
  || ((28 <=? code c) && (code c <=? 31))
  || (code c =? 32).

(** The white space that [float()] skips around a literal. *)
Definition is_float_space (c : ascii) : bool :=
  ((9 <=? code c) && (code c <=? 13)) || (code c =? 32).

Definition is_digit (c : ascii) : bool :=
  (48 <=? code c) && (code c <=? 57).

Definition digit_val (c : ascii) : Z := Z.of_N (code c - 48).

Definition lower (c : ascii) : ascii :=
  if (65 <=? code c) && (code c <=? 90) then ascii_of_N (code c + 32) else c.

Fixpoint drop_while (p : ascii -> bool) (s : list ascii) : list ascii :=
  match s with
  | [] => []
  | c :: s' => if p c then drop_while p s' else s
  end.

Definition trim (p : ascii -> bool) (s : list ascii) : list ascii :=
  rev (drop_while p (rev (drop_while p s))).

(** [s.strip()] *)
Definition strip (s : string) : string :=
  string_of_list_ascii (trim is_space (list_ascii_of_string s)).

(** No character of [s] is white space for [str.strip]. *)
Definition no_space (s : list ascii) : Prop :=
  forallb (fun c => negb (is_space c)) s = true.

(** [c in s] for a one-character [c]. *)
Definition contains (c : ascii) (s : string) : bool :=
  existsb (Ascii.eqb c) (list_ascii_of_string s).

End Text.

(** *** Literals accepted by [float()]

    The grammar is the one of the language reference:
    [[sign] (floatnumber | "inf" | "infinity" | "nan")] surrounded by white
    space, letters in any case, digits possibly grouped by single
    underscores. *)

Inductive literal : Set :=
| LNan
| LInf (neg : bool)
| LDec (neg : bool) (mantissa : Z) (exponent : Z).

Module Literal.

Import Text.
Local Open Scope Z_scope.
Local Open Scope char_scope.

(** Digits that follow a first digit: [(["_"] digit)*]. *)
Fixpoint digits_tail (acc cnt : Z) (s : list ascii) : Z * Z * list ascii :=
  match s with
  | c :: s' =>
      if is_digit c then digits_tail (10 * acc + digit_val c) (cnt + 1) s'
      else if Ascii.eqb c "_" then
        match s' with
        | d :: s'' =>
            if is_digit d
            then digits_tail (10 * acc + digit_val d) (cnt + 1) s''
            else (acc, cnt, s)
        | [] => (acc, cnt, s)
        end
      else (acc, cnt, s)
  | [] => (acc, cnt, s)
  end.

(** [digitpart]: the digits are appended to [acc]; the result carries the
    number of digits read and the rest of the text. *)
Definition digitpart (acc : Z) (s : list ascii) : option (Z * Z * list ascii) :=
  match s with
  | c :: s' =>
      if is_digit c then Some (digits_tail (10 * acc + digit_val c) 1 s')
      else None
  | [] => None
  end.

Definition sign (s : list ascii) : bool * list ascii :=
  match s with
  | c :: s' =>
      if Ascii.eqb c "-" then (true, s')
      else if Ascii.eqb c "+" then (false, s')
      else (false, s)
  | [] => (false, s)
  end.

(** Optional exponent, then the end of the text. *)
Definition exponent (m e : Z) (s : list ascii) : option (Z * Z) :=
  match s with
  | [] => Some (m, e)
  | c :: s' =>
      if Ascii.eqb (lower c) "e" then
        let (neg, s'') := sign s' in
        match digitpart 0 s'' with
        | Some (ev, _, []) => Some (m, e + (if neg then - ev else ev))
        | _ => None
        end
      else None
  end.

(** [floatnumber]: [digitpart ["." [digitpart]] [exponent]] or
    ["." digitpart [exponent]]. *)
Definition floatnumber (s : list ascii) : option (Z * Z) :=
  match digitpart 0 s with
  | Some (ip, _, rest) =>
      match rest with
      | c :: rest' =>
          if Ascii.eqb c "." then
            match digitpart ip rest' with
            | Some (m, fc, rest'') => exponent m (- fc) rest''
            | None => exponent ip 0 rest'
            end
          else exponent ip 0 rest
      | [] => exponent ip 0 rest
      end
  | None =>
      match s with
      | c :: s' =>
          if Ascii.eqb c "." then
            match digitpart 0 s' with
            | Some (m, fc, rest) => exponent m (- fc) rest
            | None => None
            end
          else None
      | [] => None
      end
  end.

Definition keyword (s : list ascii) : string :=
  string_of_list_ascii (map lower s).

(** A literal without the white space around it. *)
Definition parse_body (body : list ascii) : option literal :=
  let (neg, rest) := sign body in
  if String.eqb (keyword rest) "nan" then Some LNan
  else if String.eqb (keyword rest) "inf" || String.eqb (keyword rest) "infinity"
  then Some (LInf neg)
  else match floatnumber rest with
       | Some (m, e) => Some (LDec neg m e)
       | None => None
       end.

Definition parse (s : string) : option literal :=
  parse_body (trim is_float_space (list_ascii_of_string s)).

Definition value (l : literal) : pyfloat :=
  match l with
  | LNan => NaN
  | LInf neg => Inf neg
  | LDec neg m e =>
      let v := (IZR m * powerRZ 10 e)%R in
      Fin (if neg then (- v)%R else v)
  end.

End Literal.

(** [float(s)] for a string [s]: [ValueError] when [s] is not a literal. *)
Definition float_of_string (s : string) : outcome pyfloat :=
  match Literal.parse s with
  | Some l => Return (Literal.value l)
  | None => Raise ValueError
  end.

(** ** Standard input and output *)

(** What [print] and the prompt of [input] write.  The two results are kept
    as values: their rendering ([:,.2f] and [:.0f]) is not modelled. *)
Inductive out_item : Type :=
| Text (s : string)
| BondResult (repayment : pyfloat).

Record world : Type := mkWorld {
  stdin : list string;
  stdout : list out_item
}.

Definition io (A : Type) : Type := world -> outcome A * world.

Definition io_ret {A : Type} (a : A) : io A := fun w => (Return a, w).

Definition io_bind {A B : Type} (m : io A) (k : A -> io B) : io B :=
  fun w =>
    match m w with
    | (Return a, w') => k a w'
    | (Raise e, w') => (Raise e, w')
    end.

Definition lift {A : Type} (m : outcome A) : io A := fun w => (m, w).

Definition write (o : out_item) : io unit :=
  fun w => (Return tt, mkWorld (stdin w) (stdout w ++ [o])).

Definition print (s : string) : io unit := write (Text s).

Notation "x <~ m ;; k" := (io_bind m (fun x => k))
  (at level 61, m at next level, right associativity).
Notation "m ;;; k" := (io_bind m (fun _ => k))
  (at level 61, right associativity).

Definition nl : string := String (ascii_of_nat 10) EmptyString.

(** The output [out] followed by one more line of text. *)
Definition say (out : list out_item) (s : string) : list out_item :=
  out ++ [Text s].

Local Open Scope string_scope.

(** ** The validated input readers

    Every turn of a reader's loop consumes one line, so the loop is a
    recursion on the lines left on standard input; [input] raises
    [EOFError] when none is left.  [out] is what has been written so far. *)

Fixpoint get_positive_float_loop (prompt : string) (lines : list string)
  (out : list out_item) : outcome pyfloat * world :=
  match lines with
  | [] => (Raise EOFError, mkWorld [] (say out prompt))
  | l :: rest =>
      let out := say out prompt in
      match float_of_string l with
      | Return value =>
          if Float.le value (Fin 0) then
            get_positive_float_loop prompt rest
              (say out "Please enter a greater number than zero.")
          else (Return value, mkWorld rest out)
      | Raise ValueError =>
          get_positive_float_loop prompt rest
            (say out "Invalid input. Please enter numeric value.")
      | Raise e => (Raise e, mkWorld rest out)
      end
  end.

Definition get_positive_float (prompt : string) : io pyfloat :=
  fun w => get_positive_float_loop prompt (stdin w) (stdout w).

Fixpoint get_interest_rate_loop (prompt : string) (lines : list string)
  (out : list out_item) : outcome pyfloat * world :=
  match lines with
  | [] => (Raise EOFError, mkWorld [] (say out prompt))
  | l :: rest =>
      let out := say out prompt in
      let rate_input := Text.strip l in
      if Text.contains "%" rate_input then
        get_interest_rate_loop prompt rest
          (say (say out "Do not include the '%' symbol.")
               "Enter numbers only (i.e. 8 for 8%).")
      else
        match float_of_string rate_input with
        | Return rate =>
            if Float.le rate (Fin 0) then
              get_interest_rate_loop prompt rest
                (say out "Please enter interest rate greater than zero.")
            else (Return rate, mkWorld rest out)
        | Raise ValueError =>
            get_interest_rate_loop prompt rest
              (say out "Invalid input. Please enter a numeric value.")
        | Raise e => (Raise e, mkWorld rest out)
        end
  end.

Definition get_interest_rate (prompt : string) : io pyfloat :=
  fun w => get_interest_rate_loop prompt (stdin w) (stdout w).

(** ** The bond handler

    [handle_bond_inputs] is the handler up to the call of the calculator:
    the three reads, the guard and the conversion [int(months)].  It returns
    the arguments of the call, or [None] when the guard returns early.
    [handle_bond] then makes the call and prints the result. *)

Definition handle_bond_inputs : io (option (pyfloat * pyfloat * Z)) :=
  print (nl ++ "Bond Repayment Calculator:") ;;;
  house_value <~ get_positive_float "Enter current value of the house: £" ;;
  rate <~ get_interest_rate "Enter annual interest rate (i.e. 7 for 7%): " ;;
  let months_prompt := "Enter how many months you want to repay the bond: " in
  months <~ get_positive_float months_prompt ;;
  if Float.le months (Fin 0) || Float.le rate (Fin 0) then
    print "Invalid input: months and interest rate must be > 0." ;;;
    io_ret None
  else
    n <~ lift (Float.to_int months) ;;
    io_ret (Some (house_value, rate, n)).

Definition handle_bond : io unit :=
  args <~ handle_bond_inputs ;;
  match args with
  | None => io_ret tt
  | Some (house_value, rate, n) =>
      repayment <~ lift (calculate_bond_repayment house_value rate n) ;;
      write (BondResult repayment)
  end.

(** ** The investment handler and the menu *)

(** [s.lower()] on an ASCII text. *)
Definition lower_string (s : string) : string :=
  string_of_list_ascii (map Text.lower (list_ascii_of_string s)).

(** [input(prompt)]: the prompt is written, then one line is read;
    [EOFError] when standard input is exhausted. *)
Definition input (prompt : string) : io string :=
  fun w =>
    match stdin w with
    | [] => (Raise EOFError, mkWorld [] (say (stdout w) prompt))
    | l :: rest => (Return l, mkWorld rest (say (stdout w) prompt))
    end.

(** The loop of [handle_investment] that asks for the kind of interest: one
    line per turn, as for the readers. *)
Fixpoint interest_type_loop (lines : list string) (out : list out_item)
  : outcome string * world :=
  let prompt := "Do you want 'simple' or 'compound' interest?: " in
  match lines with
  | [] => (Raise EOFError, mkWorld [] (say out prompt))
  | l :: rest =>
      let out := say out prompt in
      let interest_type := lower_string (Text.strip l) in
      if String.eqb interest_type "simple"
         || String.eqb interest_type "compound"
      then (Return interest_type, mkWorld rest out)
      else
        interest_type_loop rest
          (say out "Invalid choice. Please enter 'simple' or 'compound'.")
  end.

Definition read_interest_type : io string :=
  fun w => interest_type_loop (stdin w) (stdout w).

(** The menu of [main]: the four lines of the menu, then the choice as the
    user typed it. *)
Definition menu : io string :=
  print "Please type your option:" ;;;
  print "Investment - Calculate investment returns" ;;;
  print "Bond       - Calculate home loan repayments" ;;;
  print "Exit       - Exit calculator" ;;;
  input (nl ++ "Enter your choice: ").

(** [w'] is [w] after some lines were read and some output written: the
    lines left are a suffix of the ones there were, the output is
    extended. *)
Definition advances (w w' : world) : Prop :=
  (exists read, stdin w = (read ++ stdin w')%list)
  /\ (exists written, stdout w' = (stdout w ++ written)%list).

(** An action that only reads forward and only adds to the output. *)
Definition framed {A : Type} (m : io A) : Prop :=
  forall w r w', m w = (r, w') -> advances w w'.

(** What one turn of the menu writes. *)
Definition menu_text : list out_item :=
  [Text "Please type your option:";
   Text "Investment - Calculate investment returns";
   Text "Bond       - Calculate home loan repayments";
   Text "Exit       - Exit calculator";
   Text (nl ++ "Enter your choice: ")].

(** The command that [main] makes of a line: stripped, in lower case. *)
Definition command (line : string) : string :=
  lower_string (Text.strip line).

(** *** What a reader accepts

    The value that each loop takes from one line, if it takes one, and the
    search of the first line a loop accepts, with the lines that follow
    it. *)

Definition accepts_positive (l : string) : option pyfloat :=
  match float_of_string l with
  | Return value => if Float.le value (Fin 0) then None else Some value
  | Raise _ => None
  end.

Definition accepts_rate (l : string) : option pyfloat :=
  if Text.contains "%" (Text.strip l) then None
  else accepts_positive (Text.strip l).

Definition accepts_interest_type (l : string) : option string :=
  let interest_type := lower_string (Text.strip l) in
  if String.eqb interest_type "simple" || String.eqb interest_type "compound"
  then Some interest_type
  else None.

Fixpoint first_accepted {A : Type} (accept : string -> option A)
  (lines : list string) : option (A * list string) :=
  match lines with
  | [] => None
  | l :: rest =>
      match accept l with
      | Some a => Some (a, rest)
      | None => first_accepted accept rest
      end
  end.

Section Rendering.

(** The renderings [:.0f] and [:,.2f] of a float in an f-string; how they
    spell a number is not modelled. *)
Variables format_0f format_2f : pyfloat -> string.

Definition handle_investment : io unit :=
  print (nl ++ "Investment Calculator:") ;;;
  principal <~ get_positive_float "Enter the amount you want to Deposit: £" ;;
  rate <~ get_interest_rate "Enter the interest rate (i.e. 8 for 8%): " ;;
  let years_prompt := "Enter the number of years you want to invest: " in
  years <~ get_positive_float years_prompt ;;
  interest_type <~ read_interest_type ;;
  total <~ lift (if String.eqb interest_type "simple"
                 then calculate_simple_interest principal rate years
                 else calculate_compound_interest principal rate years) ;;
  print (nl ++ "After " ++ format_0f years
         ++ " years, your investment will be worth: "
         ++ "£" ++ format_2f total ++ nl).

(** The loop of [main].  A turn reads at least one line, so [fuel] bounds
    the number of turns; [None] is a loop that ran out of fuel. *)
Fixpoint main_loop (fuel : nat) (w : world) : option (outcome unit * world) :=
  match fuel with
  | O => None
  | S fuel =>
      match menu w with
      | (Raise e, w1) => Some (Raise e, w1)
      | (Return line, w1) =>
          let choice := lower_string (Text.strip line) in
          if String.eqb choice "investment" then
            match handle_investment w1 with
            | (Return _, w2) => main_loop fuel w2
            | (Raise e, w2) => Some (Raise e, w2)
            end
          else if String.eqb choice "bond" then
            match handle_bond w1 with
            | (Return _, w2) => main_loop fuel w2
            | (Raise e, w2) => Some (Raise e, w2)
            end
          else if String.eqb choice "exit" then
            Some (print (nl ++ "Thank you for using Financial Calculator. Goodbye!") w1)
          else main_loop fuel w1
      end
  end.

(** [main] on a finite standard input: one turn per line and one more for
    the end of the input are enough. *)
Definition main (w : world) : option (outcome unit * world) :=
  main_loop (S (List.length (stdin w)))
    (snd (print ("Welcome to your Financial Calculator!" ++ nl) w)).

End Rendering.

(** ** The calculators in binary64 arithmetic

    A Python [float] is a binary64 number, here a primitive [float]: the
    operations [+], [-], [*] and [/] round to nearest, ties to even, and
    overflow to an infinity.  Python adds the exceptions: [/] raises
    [ZeroDivisionError] on a zero divisor, [float(n)] and [math.pow] raise
    [OverflowError], [math.pow] raises [ValueError]. *)

Module Binary64.

Local Open Scope float_scope.

(** [a / b] in Python: a zero divisor raises, whatever the dividend is. *)
Definition truediv (a b : float) : outcome float :=
  if b =? 0 then Raise ZeroDivisionError else Return (a / b).

(** [float(n)] for a Python [int]: the nearest float, ties to even;
    [OverflowError] when that is beyond the largest float.  [math.pow]
    converts an [int] argument this way. *)
Definition float_of_int (n : Z) : outcome float :=
  let f := SF2Prim (binary_normalize prec emax n 0 false) in
  if is_infinity f then Raise OverflowError else Return f.

(** A finite float whose value is an integer, and that integer. *)
Definition is_integer (y : float) : bool :=
  match Prim2SF y with
  | S754_zero _ => true
  | S754_finite _ m e => (0 <=? e)%Z || (Z.land (Zpos m) (Z.ones (- e)) =? 0)%Z
  | _ => false
  end.

Definition integer_value (y : float) : Z :=
  match Prim2SF y with
  | S754_finite s m e => cond_Zopp s (Z.shiftl (Zpos m) e)
  | _ => 0%Z
  end.

Definition is_odd_integer (y : float) : bool :=
  is_integer y && Z.odd (integer_value y).

(** The magnitude of [a] with the sign of [b]. *)
Definition copysign (a b : float) : float :=
  if get_sign b then - abs a else abs a.

(** Powers of two around a finite [x] that is not zero:
    [2 ^ lo <= |x| <= 2 ^ hi]. *)
Definition magnitude (x : float) : option (Z * Z) :=
  match Prim2SF x with
  | S754_finite _ m e =>
      let d := Zpos (digits2_pos m) in
      Some (d + e - 1, if (Zpos m =? 2 ^ (d - 1))%Z then d + e - 1 else d + e)%Z
  | _ => None
  end.

(** [k <= b * y] for a finite [y], decided over the integers. *)
Definition at_least (k b : Z) (y : float) : bool :=
  match Prim2SF y with
  | S754_finite s m e =>
      let v := (b * cond_Zopp s (Zpos m))%Z in
      if (0 <=? e)%Z then (k <=? v * 2 ^ e)%Z else (k * 2 ^ (- e) <=? v)%Z
  | _ => false
  end.

(** A power that is out of range whatever the accuracy of the library is:
    [2 ^ 1024 <= 2 ^ (lo * y) <= |x| ^ y] for a positive [y], and
    [2 ^ 1024 <= 2 ^ (hi * y) <= |x| ^ y] for a negative one. *)
Definition exceeds_range (x y : float) : bool :=
  match magnitude x with
  | Some (lo, hi) => if 0 <? y then at_least 1024 lo y else at_least 1024 hi y
  | None => false
  end.

Section Platform.

(** The value that the C library's [pow] gives on ordinary arguments. *)
Variable libm_pow : float -> float -> float.

(** C's [pow] on finite arguments, with the special cases of C99 (F.9.4.4):
    [pow(x, 0) = 1] and [pow(1, y) = 1]; a zero base gives an infinity for
    a negative exponent and a zero for a positive one; a negative base with
    an exponent that is not an integer gives NaN; a result that is out of
    range gives an infinity. *)
Definition c_pow (x y : float) : float :=
  if y =? 0 then 1
  else if x =? 1 then 1
  else if x =? 0 then
    (if y <? 0 then (if is_odd_integer y then copysign infinity x else infinity)
     else (if is_odd_integer y then x else 0))
  else if (x <? 0) && negb (is_integer y) then nan
  else if exceeds_range x y then
    (if (x <? 0) && is_odd_integer y then neg_infinity else infinity)
  else libm_pow x y.

(** [math.pow(x, y)].  Arguments that are not finite are settled without the
    C library.  On finite arguments a NaN from C's [pow] is a [ValueError];
    an infinity is a [ValueError] on a zero base and an [OverflowError]
    otherwise. *)
Definition math_pow (x y : float) : outcome float :=
  if is_finite x && is_finite y then
    let r := c_pow x y in
    if is_nan r then Raise ValueError
    else if is_infinity r then
      (if x =? 0 then Raise ValueError else Raise OverflowError)
    else Return r
  else if is_nan x then Return (if y =? 0 then 1 else x)
  else if is_nan y then Return (if x =? 1 then 1 else y)
  else if is_infinity x then
    (if 0 <? y then Return (if is_odd_integer y then x else abs x)
     else if y =? 0 then Return 1
     else Return (if is_odd_integer y then copysign 0 x else 0))
  else
    (if abs x =? 1 then Return 1
     else if (0 <? y) && (1 <? abs x) then Return y
     else if (y <? 0) && (abs x <? 1) then Return (- y)
     else Return 0).

Definition calculate_simple_interest (principal rate years : float)
  : outcome float :=
  r <- truediv rate 100 ;;
  Return (principal * (1 + r * years)).

Definition calculate_compound_interest (principal rate years : float)
  : outcome float :=
  r <- truediv rate 100 ;;
  p <- math_pow (1 + r) years ;;
  Return (principal * p).

Definition calculate_bond_repayment (house_value annual_rate : float)
  (months : Z) : outcome float :=
  r <- truediv annual_rate 100 ;;
  monthly_rate <- truediv r 12 ;;
  e <- float_of_int (- months) ;;
  p <- math_pow (1 + monthly_rate) e ;;
  let denom := 1 - p in
  let repayment := truediv (monthly_rate * house_value) denom in
  repayment.

End Platform.

(** A property of the program that holds whatever the C library's [pow]
    gives on ordinary arguments. *)
Definition on_every_platform (P : (float -> float -> float) -> Prop) : Prop :=
  forall libm_pow, P libm_pow.

End Binary64.

(** ** The formula of the specification

    Written from the specification's text over the real numbers, to be
    compared with the simple interest calculator above. *)

Local Open Scope R_scope.


(** * Properties *)

(** ** Boolean comparisons *)

Lemma Reqb_refl (x : R) : Reqb x x = true.
Proof. unfold Reqb. destruct (Req_dec_T x x); congruence. Qed.

Lemma Reqb_neq (x y : R) : x <> y -> Reqb x y = false.
Proof. unfold Reqb. destruct (Req_dec_T x y); congruence. Qed.

Lemma Reqb_eq (x y : R) : x = y -> Reqb x y = true.
Proof. intros ->. apply Reqb_refl. Qed.

Lemma Rltb_lt (x y : R) : x < y -> Rltb x y = true.
Proof. unfold Rltb. destruct (Rlt_dec x y); tauto. Qed.

Lemma Rltb_nlt (x y : R) : y <= x -> Rltb x y = false.
Proof. unfold Rltb. destruct (Rlt_dec x y); [lra | reflexivity]. Qed.

Lemma Rleb_le (x y : R) : x <= y -> Rleb x y = true.
Proof. unfold Rleb. destruct (Rle_dec x y); tauto. Qed.

Lemma Rleb_nle (x y : R) : y < x -> Rleb x y = false.
Proof. unfold Rleb. destruct (Rle_dec x y); [lra | reflexivity]. Qed.

Lemma le_zero_false (x : R) : 0 < x -> Float.le (Fin x) (Fin 0) = false.
Proof. intros H. simpl. now apply Rleb_nle. Qed.

Lemma le_zero_true (x : R) : x <= 0 -> Float.le (Fin x) (Fin 0) = true.
Proof. intros H. simpl. now apply Rleb_le. Qed.

(** ** Arithmetic on finite values *)

Lemma div_finite (x y : R) :
  y <> 0 -> Float.div (Fin x) (Fin y) = Return (Fin (x / y)).
Proof. intros H. unfold Float.div. now rewrite Reqb_neq. Qed.

Lemma div_by_zero (a : pyfloat) (y : R) :
  y = 0 -> Float.div a (Fin y) = Raise ZeroDivisionError.
Proof. intros H. unfold Float.div. now rewrite Reqb_eq. Qed.

Lemma percent (x : R) : Float.div (Fin x) (Fin 100) = Return (Fin (x / 100)).
Proof. apply div_finite. lra. Qed.

Lemma twelfth (x : R) : Float.div (Fin x) (Fin 12) = Return (Fin (x / 12)).
Proof. apply div_finite. lra. Qed.

(** ** Truncation *)

Lemma trunc_half : Float.trunc (5 / 10) = 0%Z.
Proof.
  unfold Float.trunc. destruct (Rle_dec 0 (5 / 10)) as [_ | H]; [| lra].
  symmetry. apply Int_part_spec. lra.
Qed.

(** ** The calculators on finite values *)


Lemma bond_repayment_unfold (V rate : R) (n : Z) :
  calculate_bond_repayment (Fin V) (Fin rate) n
  = (p <- Math.finite_pow (1 + rate / 100 / 12) (IZR (- n)) ;;
     Float.div (Fin (rate / 100 / 12 * V)) (Float.sub (Fin 1) p)).
Proof.
  unfold calculate_bond_repayment. rewrite percent. cbn [bind].
  rewrite twelfth. reflexivity.
Qed.


(** ** The calculators in binary64 arithmetic *)

Set Warnings "-inexact-float".

Section Binary64Arithmetic.

Import Binary64.
Local Open Scope float_scope.

Variable libm_pow : float -> float -> float.

Lemma truediv_100 (a : float) : truediv a 100 = Return (a / 100).
Proof. reflexivity. Qed.

Lemma not_finite (x : float) :
  is_finite x = false -> is_nan x = true \/ is_infinity x = true.
Proof.
  unfold is_finite. destruct (is_nan x), (is_infinity x); simpl; auto.
Qed.

(** *** The documented special cases of [math.pow] *)

Lemma math_pow_one (y : float) : math_pow libm_pow 1 y = Return 1.
Proof.
  unfold math_pow. change (is_finite 1) with true. cbn [andb].
  destruct (is_finite y) eqn:Hy.
  - unfold c_pow. change (1 =? 1) with true.
    destruct (y =? 0); reflexivity.
  - change (is_nan 1) with false. cbv iota.
    change (1 =? 1) with true. change (is_infinity 1) with false.
    change (abs 1 =? 1) with true.
    destruct (is_nan y); reflexivity.
Qed.

Lemma math_pow_zero_exponent (x : float) : math_pow libm_pow x 0 = Return 1.
Proof.
  unfold math_pow. change (is_finite 0) with true. rewrite andb_true_r.
  destruct (is_finite x) eqn:Hx.
  - reflexivity.
  - change (0 =? 0) with true.
    destruct (not_finite x Hx) as [H | H]; rewrite H.
    + reflexivity.
    + destruct (is_nan x); reflexivity.
Qed.


(** *** Signs and zeros, from the specification of the operations *)









(** Multiplying by 1.0 rounds nothing. *)
Lemma mul_one (x : float) : x * 1 = x.
Proof.
  apply Prim2SF_inj. rewrite mul_spec.
  pose proof (Prim2SF_valid x) as Hv.
  change (Prim2SF 1) with (S754_finite false 4503599627370496 (-52)).
  destruct (Prim2SF x) as [s | s | | s m e];
    [destruct s; reflexivity | destruct s; reflexivity | reflexivity |].
  unfold SF64mul, SFmul. rewrite xorb_false_r.
  cbn [SpecFloat.valid_binary] in Hv. unfold bounded, canonical_mantissa in Hv.
  apply andb_prop in Hv as [Hc Hb].
  apply Z.eqb_eq in Hc.
  rewrite Pos.mul_comm. cbn [Pos.mul].
  unfold binary_round_aux, shr_fexp.
  cbn [Zdigits2 digits2_pos].
  rewrite !Pos2Z.inj_succ.
  replace (fexp prec emax _)
    with e by (rewrite <- Hc at 1; f_equal; lia).
  replace (e - (e + -52))%Z with 52%Z by lia.
  cbn [shr shr_record_of_loc iter_pos shr_1 shr_m shr_r shr_s orb
       loc_of_shr_record round_nearest_even Zdigits2].
  replace (e + -52 + 52)%Z with e by lia.
  rewrite Hc, Z.sub_diag. cbn [shr shr_m shr_record_of_loc].
  now rewrite Hb.
Qed.

(** *** The power on ordinary arguments *)


(** *** The bond repayment *)


Lemma bond_repayment_steps (house_value annual_rate : float) (months : Z) :
  calculate_bond_repayment libm_pow house_value annual_rate months
  = (e <- float_of_int (- months) ;;
     p <- math_pow libm_pow (1 + annual_rate / 100 / 12) e ;;
     truediv (annual_rate / 100 / 12 * house_value) (1 - p)).
Proof. reflexivity. Qed.

(** A monthly rate that [1 +] absorbs leaves the base [1.0], the power
    [1.0] and the denominator [0.0]. *)
Lemma zero_denominator (house_value annual_rate : float) (months : Z) :
  1 + annual_rate / 100 / 12 = 1 ->
  (exists e, float_of_int (- months) = Return e) ->
  calculate_bond_repayment libm_pow house_value annual_rate months
  = Raise ZeroDivisionError.
Proof.
  intros Hb [e He]. rewrite bond_repayment_steps, He, Hb. cbn [bind].
  rewrite math_pow_one. reflexivity.
Qed.




(** X6: the bond routine divides by zero on a term of zero months, whatever
    the house value and the rate are (NaN and the infinities included), and
    on a rate of zero, whatever the house value is, on every term that the
    conversion to a float accepts; a term beyond the range of the floats,
    such as [10 ^ 400] months, ends with [OverflowError] instead. *)
Theorem bond_repayment_zero_raises :
  (forall house_value annual_rate : float,
      calculate_bond_repayment libm_pow house_value annual_rate 0
      = Raise ZeroDivisionError)
  /\ (forall (house_value : float) (months : Z) (e : float),
         float_of_int (- months) = Return e ->
         calculate_bond_repayment libm_pow house_value 0 months
         = Raise ZeroDivisionError)
  /\ (forall house_value annual_rate : float,
         calculate_bond_repayment libm_pow house_value annual_rate (10 ^ 400)
         = Raise OverflowError).
Proof.
  split; [| split].
  - intros house_value annual_rate. rewrite bond_repayment_steps.
    change (float_of_int (- 0)) with (Return 0). cbn [bind].
    rewrite math_pow_zero_exponent. reflexivity.
  - intros house_value months e He.
    apply zero_denominator; [reflexivity | eauto].
  - intros house_value annual_rate. rewrite bond_repayment_steps.
    replace (float_of_int (- 10 ^ 400)) with (@Raise float OverflowError)
      by (vm_compute; reflexivity).
    reflexivity.
Qed.

(** X22: a rate above zero can still divide by zero.  When the monthly rate
    is so small that [1 + monthly_rate] rounds to [1.0] (an annual rate
    below about [1.3e-13] per cent), [calculate_bond_repayment] raises
    [ZeroDivisionError] for every house value and every term that the
    conversion to a float accepts. *)
Theorem bond_repayment_vanishing_rate_raises :
  forall (house_value annual_rate : float) (months : Z) (e : float),
    1 + annual_rate / 100 / 12 = 1 ->
    float_of_int (- months) = Return e ->
    calculate_bond_repayment libm_pow house_value annual_rate months
    = Raise ZeroDivisionError.
Proof. intros. apply zero_denominator; eauto. Qed.

(** X23: when the rate is so small that [1 + rate / 100] rounds to [1.0]
    (a rate below about [1.1e-14] per cent), [calculate_compound_interest]
    returns the principal itself, whatever the number of years is. *)
Theorem compound_interest_vanishing_rate :
  forall principal rate years : float,
    1 + rate / 100 = 1 ->
    calculate_compound_interest libm_pow principal rate years
    = Return principal.
Proof.
  intros principal rate years H. unfold calculate_compound_interest.
  rewrite truediv_100. cbn [bind]. rewrite H, math_pow_one. cbn [bind].
  now rewrite mul_one.
Qed.

(** X24: the bond repayment depends on the house value through the rounded
    product [monthly_rate * house_value] alone: two house values with the
    same rounded product have the same outcome, so the repayment is not
    strictly increasing in the house value. *)
Theorem bond_repayment_rounded_product :
  forall (V1 V2 annual_rate : float) (months : Z),
    annual_rate / 100 / 12 * V1 = annual_rate / 100 / 12 * V2 ->
    calculate_bond_repayment libm_pow V1 annual_rate months
    = calculate_bond_repayment libm_pow V2 annual_rate months.
Proof.
  intros V1 V2 annual_rate months H. rewrite !bond_repayment_steps.
  now rewrite H.
Qed.

End Binary64Arithmetic.

(** *** On given arguments *)

Section Binary64Instances.

Import Binary64.
Local Open Scope float_scope.





(** C7 at the house values 100000 and 200000, rate [1e-13] and 12 months:
    the two calls raise [ZeroDivisionError], so that neither returns a
    repayment to compare. *)
Theorem bond_repayment_two_values_raise :
  on_every_platform (fun libm_pow =>
    (0 <? 100000) = true /\ (100000 <? 200000) = true
    /\ (0 <? 1e-13) = true /\ (1 <= 12)%Z
    /\ calculate_bond_repayment libm_pow 100000 1e-13 12
       = Raise ZeroDivisionError
    /\ calculate_bond_repayment libm_pow 200000 1e-13 12
       = Raise ZeroDivisionError).
Proof. intros libm_pow. repeat split; try reflexivity. discriminate. Qed.

(** C10 at house value 100000, rate [1e-13] and the terms of 12 and 24
    months: the two calls raise [ZeroDivisionError], so that neither returns
    a repayment to compare. *)
Theorem bond_repayment_two_terms_raise :
  on_every_platform (fun libm_pow =>
    (0 <? 100000) = true /\ (0 <? 1e-13) = true /\ (1 <= 12 < 24)%Z
    /\ calculate_bond_repayment libm_pow 100000 1e-13 12
       = Raise ZeroDivisionError
    /\ calculate_bond_repayment libm_pow 100000 1e-13 24
       = Raise ZeroDivisionError).
Proof. intros libm_pow. repeat split; try reflexivity; discriminate. Qed.

Lemma bond_repayment_vanishing_rate_raises_witness :
  on_every_platform (fun libm_pow =>
    1 + 1e-13 / 100 / 12 = 1
    /\ float_of_int (- 12) = Return (-12)
    /\ calculate_bond_repayment libm_pow 100000 1e-13 12
       = Raise ZeroDivisionError).
Proof.
  intros libm_pow.
  assert (H1 : 1 + 1e-13 / 100 / 12 = 1) by reflexivity.
  assert (H2 : float_of_int (- 12) = Return (-12)) by (vm_compute; reflexivity).
  split; [exact H1 | split; [exact H2 |]].
  exact (bond_repayment_vanishing_rate_raises libm_pow 100000 1e-13 12 _ H1 H2).
Defined.

Lemma compound_interest_vanishing_rate_witness :
  on_every_platform (fun libm_pow =>
    1 + 1e-17 / 100 = 1
    /\ calculate_compound_interest libm_pow 1000 1e-17 1e10 = Return 1000).
Proof.
  intros libm_pow.
  assert (H : 1 + 1e-17 / 100 = 1) by reflexivity.
  split; [exact H |].
  exact (compound_interest_vanishing_rate libm_pow 1000 1e-17 1e10 H).
Defined.

Lemma bond_repayment_rounded_product_witness :
  on_every_platform (fun libm_pow =>
    (3 <? 0x1.8000000000001p+1) = true
    /\ 7 / 100 / 12 * 3 = 7 / 100 / 12 * 0x1.8000000000001p+1
    /\ calculate_bond_repayment libm_pow 3 7 240
       = calculate_bond_repayment libm_pow 0x1.8000000000001p+1 7 240).
Proof.
  intros libm_pow.
  assert (H : 7 / 100 / 12 * 3 = 7 / 100 / 12 * 0x1.8000000000001p+1)
    by reflexivity.
  split; [reflexivity | split; [exact H |]].
  exact (bond_repayment_rounded_product libm_pow 3 0x1.8000000000001p+1 7 240 H).
Defined.

(** X25: compound interest against simple interest at principal 1000 and
    rate [1e-17].  Over 2 years the two totals are both 1000.0, equal away
    from one year; over [1e10] years the compound total is 1000.0 and the
    simple total 1000.000001, so that compound interest is below simple
    interest. *)
Theorem compound_against_simple_at_vanishing_rate :
  on_every_platform (fun libm_pow =>
    calculate_compound_interest libm_pow 1000 1e-17 2 = Return 1000
    /\ calculate_simple_interest 1000 1e-17 2 = Return 1000
    /\ calculate_compound_interest libm_pow 1000 1e-17 1e10 = Return 1000
    /\ calculate_simple_interest 1000 1e-17 1e10
       = Return 0x1.f4000008637bep+9
    /\ (1000 <? 0x1.f4000008637bep+9) = true).
Proof. intros libm_pow. repeat split; vm_compute; reflexivity. Qed.

End Binary64Instances.

Local Close Scope string_scope.

(** ** Stripping white space *)

Section Trim.

Import Text.

Variable p : ascii -> bool.

Lemma drop_while_all (A t : list ascii) :
  forallb p A = true -> drop_while p (A ++ t) = drop_while p t.
Proof.
  induction A as [| c A IH]; simpl; [reflexivity |].
  intros H. apply andb_prop in H as [Hc HA]. rewrite Hc. now apply IH.
Qed.

Lemma drop_while_none (t : list ascii) :
  forallb (fun c => negb (p c)) t = true -> drop_while p t = t.
Proof.
  destruct t as [| c t]; simpl; [reflexivity |].
  intros H. apply andb_prop in H as [Hc _].
  apply negb_true_iff in Hc. now rewrite Hc.
Qed.

Lemma drop_while_split (l : list ascii) :
  exists A, l = A ++ drop_while p l /\ forallb p A = true.
Proof.
  induction l as [| c l [A [HA HpA]]]; simpl.
  - now exists [].
  - destruct (p c) eqn:Hc.
    + exists (c :: A). simpl. rewrite Hc, HpA. split; [congruence | reflexivity].
    + now exists [].
Qed.

Lemma forallb_rev (q : ascii -> bool) (l : list ascii) :
  forallb q (rev l) = forallb q l.
Proof.
  induction l as [| c l IH]; simpl; [reflexivity |].
  rewrite forallb_app, IH. simpl. rewrite andb_true_r. apply andb_comm.
Qed.

Lemma trim_split (l : list ascii) :
  exists A B,
    l = A ++ trim p l ++ B /\ forallb p A = true /\ forallb p B = true.
Proof.
  destruct (drop_while_split l) as [A [HA HpA]].
  destruct (drop_while_split (rev (drop_while p l))) as [B [HB HpB]].
  exists A, (rev B). unfold trim. repeat split.
  - rewrite <- rev_app_distr, <- HB, rev_involutive. exact HA.
  - exact HpA.
  - now rewrite forallb_rev.
Qed.

Lemma trim_sandwich (A t B : list ascii) :
  forallb p A = true -> forallb p B = true ->
  forallb (fun c => negb (p c)) t = true ->
  trim p (A ++ t ++ B) = t.
Proof.
  intros HA HB Ht. unfold trim. rewrite drop_while_all by assumption.
  destruct t as [| c t].
  - simpl. rewrite <- (app_nil_r B), drop_while_all by assumption.
    reflexivity.
  - assert (Hct : forallb (fun c => negb (p c)) (rev (c :: t)) = true)
      by now rewrite forallb_rev.
    simpl in Ht. apply andb_prop in Ht as [Hc _].
    apply negb_true_iff in Hc.
    change (drop_while p ((c :: t) ++ B))
      with (if p c then drop_while p (t ++ B) else (c :: t) ++ B).
    rewrite Hc.
    rewrite rev_app_distr, drop_while_all by now rewrite forallb_rev.
    rewrite drop_while_none by assumption.
    apply rev_involutive.
Qed.

Lemma existsb_drop_while (c : ascii) (l : list ascii) :
  p c = false ->
  existsb (Ascii.eqb c) (drop_while p l) = existsb (Ascii.eqb c) l.
Proof.
  intros Hc. induction l as [| a l IH]; simpl; [reflexivity |].
  destruct (p a) eqn:Ha; [| reflexivity].
  rewrite IH. destruct (Ascii.eqb_spec c a) as [-> | _]; [congruence |].
  reflexivity.
Qed.

Lemma existsb_rev (q : ascii -> bool) (l : list ascii) :
  existsb q (rev l) = existsb q l.
Proof.
  induction l as [| c l IH]; simpl; [reflexivity |].
  rewrite existsb_app, IH. simpl. rewrite orb_false_r. apply orb_comm.
Qed.

Lemma existsb_trim (c : ascii) (l : list ascii) :
  p c = false ->
  existsb (Ascii.eqb c) (trim p l) = existsb (Ascii.eqb c) l.
Proof.
  intros Hc. unfold trim.
  now rewrite existsb_rev, existsb_drop_while, existsb_rev,
    existsb_drop_while.
Qed.

End Trim.

(** Stripping a line neither adds nor removes a percent sign. *)
Lemma contains_percent_strip (l : string) :
  Text.contains "%" (Text.strip l) = Text.contains "%" l.
Proof.
  unfold Text.contains, Text.strip.
  rewrite list_ascii_of_string_of_list_ascii. now apply existsb_trim.
Qed.

(** ** A literal holds no white space *)

Section LiteralText.

Import Text Literal.

Lemma digit_not_space (c : ascii) : is_digit c = true -> is_space c = false.
Proof.
  destruct c as [[] [] [] [] [] [] [] []]; intros H; vm_compute in *;
    congruence.
Qed.

Lemma lower_not_space (c : ascii) :
  is_space (lower c) = false -> is_space c = false.
Proof.
  destruct c as [[] [] [] [] [] [] [] []]; intros H; vm_compute in *;
    congruence.
Qed.

Lemma float_space_is_space (c : ascii) :
  is_float_space c = true -> is_space c = true.
Proof.
  destruct c as [[] [] [] [] [] [] [] []]; intros H; vm_compute in *;
    congruence.
Qed.

Lemma no_space_cons (c : ascii) (s : list ascii) :
  is_space c = false -> no_space s -> no_space (c :: s).
Proof. unfold no_space. simpl. now intros -> ->. Qed.

Lemma digits_tail_no_space (n : nat) :
  forall s acc cnt acc' cnt' rest,
    (List.length s <= n)%nat ->
    digits_tail acc cnt s = (acc', cnt', rest) ->
    no_space rest -> no_space s.
Proof.
  induction n as [| n IH]; intros s acc cnt acc' cnt' rest Hlen Hd Hrest.
  - destruct s; [| simpl in Hlen; lia].
    reflexivity.
  - destruct s as [| c s']; [reflexivity |].
    cbn [digits_tail] in Hd. simpl in Hlen.
    destruct (is_digit c) eqn:Hc.
    + apply no_space_cons; [now apply digit_not_space |].
      apply (IH s' _ _ _ _ _ ltac:(lia) Hd Hrest).
    + destruct (Ascii.eqb_spec c "_"%char) as [-> | Hne].
      * destruct s' as [| d s''].
        { now inversion Hd; subst. }
        destruct (is_digit d) eqn:Hdd.
        { apply no_space_cons; [reflexivity |].
          apply no_space_cons; [now apply digit_not_space |].
          simpl in Hlen.
          apply (IH s'' _ _ _ _ _ ltac:(lia) Hd Hrest). }
        now inversion Hd; subst.
      * now inversion Hd; subst.
Qed.

Lemma digitpart_no_space (acc : Z) (s : list ascii) m k rest :
  digitpart acc s = Some (m, k, rest) -> no_space rest -> no_space s.
Proof.
  unfold digitpart. destruct s as [| c s']; [discriminate |].
  destruct (is_digit c) eqn:Hc; [| discriminate].
  intros H Hrest. inversion H as [Hd]. clear H.
  apply no_space_cons; [now apply digit_not_space |].
  now apply (digits_tail_no_space (List.length s') s' _ _ _ _ _ (le_n _) Hd).
Qed.

Lemma sign_no_space (s : list ascii) neg rest :
  sign s = (neg, rest) -> no_space rest -> no_space s.
Proof.
  unfold sign. destruct s as [| c s']; [now inversion 1 |].
  destruct (Ascii.eqb_spec c "-"%char) as [-> | _].
  { inversion 1; subst. now apply no_space_cons. }
  destruct (Ascii.eqb_spec c "+"%char) as [-> | _].
  { inversion 1; subst. now apply no_space_cons. }
  now inversion 1.
Qed.

Lemma exponent_no_space (m e : Z) (s : list ascii) r :
  exponent m e s = Some r -> no_space s.
Proof.
  unfold exponent. destruct s as [| c s']; [reflexivity |].
  destruct (Ascii.eqb_spec (lower c) "e"%char) as [Hc | _]; [| discriminate].
  destruct (sign s') as [neg s''] eqn:Hs.
  destruct (digitpart 0 s'') as [[[ev k] rest] |] eqn:Hd; [| discriminate].
  destruct rest; [| discriminate]. intros _.
  apply no_space_cons.
  - apply lower_not_space. now rewrite Hc.
  - apply (sign_no_space _ _ _ Hs).
    now apply (digitpart_no_space _ _ _ _ _ Hd).
Qed.

Lemma floatnumber_no_space (s : list ascii) r :
  floatnumber s = Some r -> no_space s.
Proof.
  unfold floatnumber.
  destruct (digitpart 0 s) as [[[ip k] rest] |] eqn:Hi.
  - intros H. apply (digitpart_no_space _ _ _ _ _ Hi).
    destruct rest as [| c rest']; [reflexivity |].
    destruct (Ascii.eqb_spec c "."%char) as [-> | _].
    + apply no_space_cons; [reflexivity |].
      destruct (digitpart ip rest') as [[[m fc] rest''] |] eqn:Hf.
      * apply (digitpart_no_space _ _ _ _ _ Hf).
        now apply exponent_no_space in H.
      * now apply exponent_no_space in H.
    + now apply exponent_no_space in H.
  - destruct s as [| c s']; [discriminate |].
    destruct (Ascii.eqb_spec c "."%char) as [-> | _]; [| discriminate].
    destruct (digitpart 0 s') as [[[m fc] rest] |] eqn:Hf; [| discriminate].
    intros H. apply no_space_cons; [reflexivity |].
    apply (digitpart_no_space _ _ _ _ _ Hf).
    now apply exponent_no_space in H.
Qed.

Lemma map_lower_no_space (s : list ascii) :
  no_space (map lower s) -> no_space s.
Proof.
  unfold no_space. induction s as [| c s IH]; simpl; [reflexivity |].
  intros H. apply andb_prop in H as [Hc Hs].
  apply negb_true_iff in Hc. rewrite (lower_not_space _ Hc). now apply IH.
Qed.

Lemma keyword_no_space (s : list ascii) (k : string) :
  String.eqb (keyword s) k = true ->
  no_space (list_ascii_of_string k) -> no_space s.
Proof.
  intros H Hk. apply String.eqb_eq in H. unfold keyword in H.
  apply map_lower_no_space.
  now rewrite <- (list_ascii_of_string_of_list_ascii (map lower s)), H.
Qed.

Lemma parse_body_no_space (t : list ascii) (lit : literal) :
  parse_body t = Some lit -> no_space t.
Proof.
  unfold parse_body. destruct (sign t) as [neg rest] eqn:Hs. intros H.
  apply (sign_no_space _ _ _ Hs).
  destruct (String.eqb (keyword rest) "nan") eqn:Hn.
  { now apply (keyword_no_space _ _ Hn). }
  destruct (String.eqb (keyword rest) "inf") eqn:Hi.
  { now apply (keyword_no_space _ _ Hi). }
  destruct (String.eqb (keyword rest) "infinity") eqn:Hy.
  { now apply (keyword_no_space _ _ Hy). }
  simpl in H.
  destruct (floatnumber rest) as [[m e] |] eqn:Hf; [| discriminate].
  now apply floatnumber_no_space in Hf.
Qed.

(** [float()] reads the same literal from a line and from the stripped
    line. *)
Lemma parse_strip (l : string) (lit : literal) :
  parse l = Some lit -> parse (strip l) = Some lit.
Proof.
  unfold parse, strip. intros H.
  rewrite list_ascii_of_string_of_list_ascii.
  pose proof (parse_body_no_space _ _ H) as Hclean.
  destruct (trim_split is_float_space (list_ascii_of_string l))
    as [A [B [Hl [HA HB]]]].
  set (t := trim is_float_space (list_ascii_of_string l)) in *.
  assert (Hsub : forall X, forallb is_float_space X = true ->
                           forallb is_space X = true).
  { intros X HX. apply forallb_forall. intros c Hc.
    apply float_space_is_space.
    now apply (proj1 (forallb_forall _ _) HX). }
  assert (Hclean' : forallb (fun c => negb (is_float_space c)) t = true).
  { apply forallb_forall. intros c Hc.
    pose proof (proj1 (forallb_forall _ _) Hclean c Hc) as Hn.
    apply negb_true_iff in Hn. apply negb_true_iff.
    destruct (is_float_space c) eqn:E; [| reflexivity].
    apply float_space_is_space in E. congruence. }
  rewrite Hl at 1.
  rewrite (trim_sandwich is_space A t B) by auto.
  pose proof (trim_sandwich is_float_space [] t [] eq_refl eq_refl Hclean')
    as Ht.
  simpl in Ht. rewrite app_nil_r in Ht. rewrite Ht. exact H.
Qed.

End LiteralText.

Lemma float_of_string_strip (l : string) (v : pyfloat) :
  float_of_string l = Return v -> float_of_string (Text.strip l) = Return v.
Proof.
  unfold float_of_string.
  destruct (Literal.parse l) as [lit |] eqn:Hp; [| discriminate].
  now rewrite (parse_strip _ _ Hp).
Qed.

(** ** The readers, one line at a time *)

Lemma gt_zero_not_le (v : pyfloat) :
  Float.gt v (Fin 0) = true -> Float.le v (Fin 0) = false.
Proof.
  destruct v as [x | [] |]; simpl; try congruence.
  unfold Rltb, Rleb.
  destruct (Rlt_dec 0 x), (Rle_dec x 0); try congruence. lra.
Qed.

Lemma not_le_zero (v : pyfloat) :
  Float.le v (Fin 0) = false -> Float.gt v (Fin 0) = true \/ v = NaN.
Proof.
  destruct v as [x | [] |]; simpl; auto; try congruence.
  unfold Rltb, Rleb.
  destruct (Rlt_dec 0 x), (Rle_dec x 0); auto; try congruence. lra.
Qed.

Lemma get_positive_float_accept prompt l rest out v :
  float_of_string l = Return v ->
  Float.le v (Fin 0) = false ->
  get_positive_float prompt (mkWorld (l :: rest) out)
  = (Return v, mkWorld rest (say out prompt)).
Proof.
  intros Hp Hv. unfold get_positive_float. simpl. now rewrite Hp, Hv.
Qed.

Lemma float_of_string_raises l e : float_of_string l = Raise e -> e = ValueError.
Proof.
  unfold float_of_string. destruct (Literal.parse l); congruence.
Qed.

(** What [get_positive_float] returns is the value of the first line that
    [float()] reads to something not [<= 0]; that value is positive or NaN. *)
Lemma get_positive_float_first_accepted prompt :
  forall lines out v w',
    get_positive_float_loop prompt lines out = (Return v, w') ->
    Float.le v (Fin 0) = false
    /\ exists pre l,
        lines = pre ++ l :: stdin w'
        /\ float_of_string l = Return v
        /\ Forall (fun l' => forall v', float_of_string l' = Return v' ->
                                        Float.le v' (Fin 0) = true) pre.
Proof.
  induction lines as [| l rest IH]; intros out v w' H; simpl in H.
  - discriminate.
  - destruct (float_of_string l) as [value | e] eqn:Hp.
    + destruct (Float.le value (Fin 0)) eqn:Hle.
      * destruct (IH _ _ _ H) as [Hv [pre [l0 [Hl [Hp0 Hpre]]]]].
        split; [exact Hv |]. exists (l :: pre), l0.
        split; [simpl; congruence |]. split; [exact Hp0 |].
        constructor; [| exact Hpre]. intros v' Hv'. congruence.
      * inversion H; subst. split; [exact Hle |].
        exists [], l. simpl. auto.
    + rewrite (float_of_string_raises _ _ Hp) in H.
      destruct (IH _ _ _ H) as [Hv [pre [l0 [Hl [Hp0 Hpre]]]]].
      split; [exact Hv |]. exists (l :: pre), l0.
      split; [simpl; congruence |]. split; [exact Hp0 |].
      constructor; [| exact Hpre]. intros v' Hv'. congruence.
Qed.

Lemma get_interest_rate_reject prompt l rest out :
  Text.contains "%" l = true ->
  get_interest_rate prompt (mkWorld (l :: rest) out)
  = get_interest_rate prompt
      (mkWorld rest
         (say (say (say out prompt) "Do not include the '%' symbol.")
            "Enter numbers only (i.e. 8 for 8%).")).
Proof.
  intros H. unfold get_interest_rate. simpl.
  now rewrite contains_percent_strip, H.
Qed.

Lemma get_interest_rate_accept prompt l rest out v :
  Text.contains "%" l = false ->
  float_of_string l = Return v ->
  Float.le v (Fin 0) = false ->
  get_interest_rate prompt (mkWorld (l :: rest) out)
  = (Return v, mkWorld rest (say out prompt)).
Proof.
  intros Hc Hp Hv. unfold get_interest_rate. simpl.
  now rewrite contains_percent_strip, Hc, (float_of_string_strip _ _ Hp), Hv.
Qed.

Lemma get_interest_rate_source prompt :
  forall lines out v w',
    get_interest_rate_loop prompt lines out = (Return v, w') ->
    exists pre l,
      lines = pre ++ l :: stdin w'
      /\ Text.contains "%" l = false
      /\ float_of_string (Text.strip l) = Return v.
Proof.
  induction lines as [| l rest IH]; intros out v w' H; simpl in H.
  - discriminate.
  - assert (Hrec : forall out',
               get_interest_rate_loop prompt rest out' = (Return v, w') ->
               exists pre l0,
                 l :: rest = pre ++ l0 :: stdin w'
                 /\ Text.contains "%" l0 = false
                 /\ float_of_string (Text.strip l0) = Return v).
    { intros out' H'. destruct (IH _ _ _ H') as [pre [l0 [Hl Hrest]]].
      exists (l :: pre), l0. split; [simpl; congruence | exact Hrest]. }
    rewrite contains_percent_strip in H.
    destruct (Text.contains "%" l) eqn:Hc; [now apply Hrec in H |].
    destruct (float_of_string (Text.strip l)) as [rate | e] eqn:Hp.
    + destruct (Float.le rate (Fin 0)); [now apply Hrec in H |].
      inversion H; subst. exists [], l. simpl. auto.
    + rewrite (float_of_string_raises _ _ Hp) in H. now apply Hrec in H.
Qed.

(** ** Some lines and their values *)

Lemma float_of_string_8 : float_of_string "8" = Return (Fin 8).
Proof.
  unfold float_of_string.
  replace (Literal.parse "8") with (Some (LDec false 8 0))
    by (vm_compute; reflexivity).
  simpl. do 2 f_equal. lra.
Qed.

Lemma float_of_string_7 : float_of_string "7" = Return (Fin 7).
Proof.
  unfold float_of_string.
  replace (Literal.parse "7") with (Some (LDec false 7 0))
    by (vm_compute; reflexivity).
  simpl. do 2 f_equal. lra.
Qed.

Lemma float_of_string_5 : float_of_string "5" = Return (Fin 5).
Proof.
  unfold float_of_string.
  replace (Literal.parse "5") with (Some (LDec false 5 0))
    by (vm_compute; reflexivity).
  simpl. do 2 f_equal. lra.
Qed.

Lemma float_of_string_100000 :
  float_of_string "100000" = Return (Fin 100000).
Proof.
  unfold float_of_string.
  replace (Literal.parse "100000") with (Some (LDec false 100000 0))
    by (vm_compute; reflexivity).
  simpl. do 2 f_equal. lra.
Qed.

Lemma float_of_string_half : float_of_string "0.5" = Return (Fin (5 / 10)).
Proof.
  unfold float_of_string.
  replace (Literal.parse "0.5") with (Some (LDec false 5 (-1)))
    by (vm_compute; reflexivity).
  simpl. do 2 f_equal. lra.
Qed.

Lemma float_of_string_nan : float_of_string "nan" = Return NaN.
Proof.
  unfold float_of_string.
  replace (Literal.parse "nan") with (Some LNan) by (vm_compute; reflexivity).
  reflexivity.
Qed.

(** ** The readers *)

(** C9: [get_interest_rate] rejects every line that holds a percent sign,
    whatever the rest of the line is: it prints its hint and goes on with the
    next line, and a value it returns was read from a line without a percent
    sign.  A line without one that [float()] reads to a positive value is
    accepted and that value returned.  So "8%" is rejected and "8" gives
    8.0. *)
Theorem get_interest_rate_percent :
  (forall prompt l rest out,
      Text.contains "%" l = true ->
      get_interest_rate prompt (mkWorld (l :: rest) out)
      = get_interest_rate prompt
          (mkWorld rest
             (say (say (say out prompt) "Do not include the '%' symbol.")
                "Enter numbers only (i.e. 8 for 8%).")))
  /\ (forall prompt lines out v w',
         get_interest_rate prompt (mkWorld lines out) = (Return v, w') ->
         exists pre l,
           lines = pre ++ l :: stdin w'
           /\ Text.contains "%" l = false
           /\ float_of_string (Text.strip l) = Return v)
  /\ (forall prompt l rest out v,
         Text.contains "%" l = false ->
         float_of_string l = Return v ->
         Float.gt v (Fin 0) = true ->
         get_interest_rate prompt (mkWorld (l :: rest) out)
         = (Return v, mkWorld rest (say out prompt)))
  /\ (forall prompt rest out,
         get_interest_rate prompt (mkWorld ("8%"%string :: rest) out)
         = get_interest_rate prompt
             (mkWorld rest
                (say (say (say out prompt) "Do not include the '%' symbol.")
                   "Enter numbers only (i.e. 8 for 8%).")))
  /\ (forall prompt rest out,
         get_interest_rate prompt (mkWorld ("8"%string :: rest) out)
         = (Return (Fin 8), mkWorld rest (say out prompt))).
Proof.
  split; [| split; [| split; [| split]]].
  - intros. now apply get_interest_rate_reject.
  - intros prompt lines out v w' H.
    now apply (get_interest_rate_source prompt lines out).
  - intros prompt l rest out v Hc Hp Hv.
    apply get_interest_rate_accept; auto using gt_zero_not_le.
  - intros. now apply get_interest_rate_reject.
  - intros. apply get_interest_rate_accept;
      [reflexivity | apply float_of_string_8 | apply le_zero_false; lra].
Qed.

(** An instance of C9: the lines "8%" then "8", read at the rate prompt of
    the bond handler. *)
Lemma get_interest_rate_percent_witness :
  Text.contains "%" "8%" = true
  /\ Text.contains "%" "8" = false
  /\ float_of_string "8" = Return (Fin 8)
  /\ Float.gt (Fin 8) (Fin 0) = true
  /\ get_interest_rate "Enter annual interest rate (i.e. 7 for 7%): "
       (mkWorld ["8%"; "8"]%string [])
     = (Return (Fin 8),
        mkWorld []
          [Text "Enter annual interest rate (i.e. 7 for 7%): ";
           Text "Do not include the '%' symbol.";
           Text "Enter numbers only (i.e. 8 for 8%).";
           Text "Enter annual interest rate (i.e. 7 for 7%): "]).
Proof.
  assert (Hgt : Float.gt (Fin 8) (Fin 0) = true)
    by (simpl; apply Rltb_lt; lra).
  split; [reflexivity | split; [reflexivity |]].
  split; [exact float_of_string_8 | split; [exact Hgt |]].
  destruct get_interest_rate_percent as [Hreject [_ [Haccept _]]].
  rewrite (Hreject _ "8%"%string ["8"%string] [] eq_refl).
  exact (Haccept _ "8"%string [] _ (Fin 8) eq_refl float_of_string_8 Hgt).
Defined.

(** C8 at the line "nan": [float()] reads it to NaN, which is not [<= 0], so
    [get_positive_float] returns NaN, a value that is not greater than
    zero, and leaves the valid line "5" that follows unread. *)
Theorem get_positive_float_nan :
  get_positive_float "Enter current value of the house: £"
    (mkWorld ["nan"; "5"]%string [])
  = (Return NaN,
     mkWorld ["5"%string] [Text "Enter current value of the house: £"])
  /\ Float.gt NaN (Fin 0) = false
  /\ float_of_string "5" = Return (Fin 5)
  /\ Float.gt (Fin 5) (Fin 0) = true.
Proof.
  split; [| split; [reflexivity | split; [exact float_of_string_5 |]]].
  - now apply get_positive_float_accept; [apply float_of_string_nan |].
  - simpl. apply Rltb_lt. lra.
Qed.

(** ** The bond handler *)

Lemma io_bind_return {A B : Type} (m : io A) (k : A -> io B) w a w' :
  m w = (Return a, w') -> io_bind m k w = k a w'.
Proof. unfold io_bind. now intros ->. Qed.

Lemma bond_repayment_zero_months (V rate : R) :
  0 < 1 + rate / 100 / 12 ->
  calculate_bond_repayment (Fin V) (Fin rate) 0 = Raise ZeroDivisionError.
Proof.
  intros Hb. rewrite bond_repayment_unfold. unfold Math.finite_pow.
  rewrite Rltb_lt by assumption. cbn [bind].
  change (IZR (- 0)) with 0. rewrite Rpower_O by assumption.
  apply div_by_zero. lra.
Qed.

(** C1 at the lines "100000", "7", "0.5": 0.5 months passes the reader and
    the guard, [int(0.5)] is 0, the formula is called with 0 months and
    divides by zero. *)
Theorem handle_bond_half_month :
  let w0 := mkWorld ["100000"; "7"; "0.5"]%string [] in
  let w1 :=
    mkWorld []
      [Text (nl ++ "Bond Repayment Calculator:")%string;
       Text "Enter current value of the house: £";
       Text "Enter annual interest rate (i.e. 7 for 7%): ";
       Text "Enter how many months you want to repay the bond: "] in
  handle_bond_inputs w0 = (Return (Some (Fin 100000, Fin 7, 0%Z)), w1)
  /\ calculate_bond_repayment (Fin 100000) (Fin 7) 0 = Raise ZeroDivisionError
  /\ handle_bond w0 = (Raise ZeroDivisionError, w1).
Proof.
  intros w0 w1.
  assert (Hin : handle_bond_inputs w0
                = (Return (Some (Fin 100000, Fin 7, 0%Z)), w1)).
  { unfold handle_bond_inputs, w0, w1.
    unfold io_bind at 1. unfold print, write. cbn [stdin stdout app].
    rewrite (io_bind_return _ _ _ _ _
               (get_positive_float_accept _ _ _ _ _
                  float_of_string_100000
                  (le_zero_false 100000 ltac:(lra)))).
    rewrite (io_bind_return _ _ _ _ _
               (get_interest_rate_accept _ "7"%string _ _ _ eq_refl
                  float_of_string_7 (le_zero_false 7 ltac:(lra)))).
    rewrite (io_bind_return _ _ _ _ _
               (get_positive_float_accept _ _ _ _ _
                  float_of_string_half (le_zero_false (5 / 10) ltac:(lra)))).
    rewrite !le_zero_false by lra. cbn [orb].
    unfold io_bind, lift, io_ret, Float.to_int. rewrite trunc_half.
    reflexivity. }
  assert (Hdiv : calculate_bond_repayment (Fin 100000) (Fin 7) 0
                 = Raise ZeroDivisionError)
    by (apply bond_repayment_zero_months; lra).
  split; [exact Hin | split; [exact Hdiv |]].
  unfold handle_bond. rewrite (io_bind_return _ _ _ _ _ Hin).
  unfold io_bind, lift. now rewrite Hdiv.
Qed.

(** ** The bond repayment at zero months *)

Lemma pow_zero_exponent (b : pyfloat) : Math.pow b (Fin 0) = Return (Fin 1).
Proof.
  destruct b as [x | s |]; simpl.
  - unfold Math.finite_pow. destruct (Rlt_dec 0 x) as [Hx | Hx].
    + rewrite Rltb_lt by assumption. now rewrite Rpower_O.
    + rewrite Rltb_nlt by lra. now rewrite Reqb_refl.
  - rewrite Rltb_nlt by lra. now rewrite Reqb_refl.
  - now rewrite Reqb_refl.
Qed.

Lemma div_constant (a : pyfloat) (y : R) :
  y <> 0 -> exists b, Float.div a (Fin y) = Return b.
Proof.
  intros Hy. unfold Float.div. rewrite Reqb_neq by assumption.
  destruct a; eauto.
Qed.

Lemma bond_zero_months_raises (house_value annual_rate : pyfloat) :
  calculate_bond_repayment house_value annual_rate 0
  = Raise ZeroDivisionError.
Proof.
  unfold calculate_bond_repayment.
  destruct (div_constant annual_rate 100 ltac:(lra)) as [r100 ->].
  cbn [bind].
  destruct (div_constant r100 12 ltac:(lra)) as [mr ->]. cbn [bind].
  change (Float.of_int (- 0)) with (Fin 0).
  rewrite pow_zero_exponent. cbn [bind].
  apply div_by_zero. lra.
Qed.

(** * The readers search the first line they accept *)

Lemma get_positive_float_search prompt :
  forall lines out,
    exists out',
      get_positive_float_loop prompt lines out
      = match first_accepted accepts_positive lines with
        | Some (value, rest) =>
            (Return value, mkWorld rest (out ++ out' ++ [Text prompt]))
        | None => (Raise EOFError, mkWorld [] (out ++ out' ++ [Text prompt]))
        end.
Proof.
  induction lines as [| l rest IH]; intros out; simpl.
  - exists []. reflexivity.
  - unfold accepts_positive.
    destruct (float_of_string l) as [value | e] eqn:Hp.
    + destruct (Float.le value (Fin 0)).
      * destruct (IH (say (say out prompt)
                        "Please enter a greater number than zero."))
          as [out' ->].
        exists ([Text prompt;
                 Text "Please enter a greater number than zero."] ++ out').
        unfold say.
        destruct (first_accepted _ rest) as [[v r] |];
          now rewrite <- !app_assoc.
      * exists []. reflexivity.
    + rewrite (float_of_string_raises _ _ Hp).
      destruct (IH (say (say out prompt)
                      "Invalid input. Please enter numeric value."))
        as [out' ->].
      exists ([Text prompt;
               Text "Invalid input. Please enter numeric value."] ++ out').
      unfold say.
      fold (accepts_positive).
      destruct (first_accepted _ rest) as [[v r] |];
        now rewrite <- !app_assoc.
Qed.

(** X9: [get_positive_float] returns the value of the first line that
    [float()] reads to a value that is not [<= 0] and leaves the lines after
    it unread; when there is no such line (the input may be empty) it reads
    them all and ends with [EOFError], and with no other error.  What was
    written before is kept, and the last thing written is the prompt. *)
Theorem get_positive_float_first_valid :
  forall prompt lines out,
    exists out',
      get_positive_float prompt (mkWorld lines out)
      = match first_accepted accepts_positive lines with
        | Some (value, rest) =>
            (Return value, mkWorld rest (out ++ out' ++ [Text prompt]))
        | None => (Raise EOFError, mkWorld [] (out ++ out' ++ [Text prompt]))
        end.
Proof. intros. apply get_positive_float_search. Qed.

Lemma get_interest_rate_search prompt :
  forall lines out,
    exists out',
      get_interest_rate_loop prompt lines out
      = match first_accepted accepts_rate lines with
        | Some (rate, rest) =>
            (Return rate, mkWorld rest (out ++ out' ++ [Text prompt]))
        | None => (Raise EOFError, mkWorld [] (out ++ out' ++ [Text prompt]))
        end.
Proof.
  induction lines as [| l rest IH]; intros out; simpl.
  - exists []. reflexivity.
  - assert (Hnext : forall msgs,
               exists out',
                 get_interest_rate_loop prompt rest
                   (out ++ Text prompt :: msgs)
                 = match first_accepted accepts_rate rest with
                   | Some (rate, rest') =>
                       (Return rate,
                        mkWorld rest' (out ++ out' ++ [Text prompt]))
                   | None =>
                       (Raise EOFError,
                        mkWorld [] (out ++ out' ++ [Text prompt]))
                   end).
    { intros msgs. destruct (IH (out ++ Text prompt :: msgs)) as [out' ->].
      exists ((Text prompt :: msgs) ++ out').
      destruct (first_accepted _ rest) as [[v r] |];
        now rewrite <- !app_assoc. }
    unfold accepts_rate, accepts_positive, say.
    destruct (Text.contains "%" (Text.strip l)).
    { rewrite <- !app_assoc. apply Hnext. }
    destruct (float_of_string (Text.strip l)) as [rate | e] eqn:Hp.
    + destruct (Float.le rate (Fin 0)).
      * rewrite <- !app_assoc. apply Hnext.
      * exists []. reflexivity.
    + rewrite (float_of_string_raises _ _ Hp).
      rewrite <- !app_assoc. apply Hnext.
Qed.

(** X10: [get_interest_rate] returns the value of the first line that,
    stripped, holds no percent sign and that [float()] reads to a value that
    is not [<= 0], and leaves the lines after it unread; when there is no
    such line it reads them all and ends with [EOFError], and with no other
    error. *)
Theorem get_interest_rate_first_valid :
  forall prompt lines out,
    exists out',
      get_interest_rate prompt (mkWorld lines out)
      = match first_accepted accepts_rate lines with
        | Some (rate, rest) =>
            (Return rate, mkWorld rest (out ++ out' ++ [Text prompt]))
        | None => (Raise EOFError, mkWorld [] (out ++ out' ++ [Text prompt]))
        end.
Proof. intros. apply get_interest_rate_search. Qed.

Lemma interest_type_search :
  forall lines out,
    exists out',
      interest_type_loop lines out
      = match first_accepted accepts_interest_type lines with
        | Some (interest_type, rest) =>
            (Return interest_type, mkWorld rest (out ++ out'))
        | None => (Raise EOFError, mkWorld [] (out ++ out'))
        end.
Proof.
  induction lines as [| l rest IH]; intros out; simpl.
  - eexists. reflexivity.
  - unfold accepts_interest_type.
    destruct (String.eqb (lower_string (Text.strip l)) "simple"
              || String.eqb (lower_string (Text.strip l)) "compound").
    + eexists. reflexivity.
    + match goal with
      | |- context [interest_type_loop rest ?o] =>
          destruct (IH o) as [out' ->]
      end.
      unfold say.
      destruct (first_accepted _ rest) as [[v r] |];
        rewrite <- !app_assoc; eexists; reflexivity.
Qed.

Lemma accepts_interest_type_cases (l t : string) :
  accepts_interest_type l = Some t ->
  t = "simple"%string \/ t = "compound"%string.
Proof.
  unfold accepts_interest_type.
  destruct (String.eqb_spec (lower_string (Text.strip l)) "simple")
    as [E | _]; simpl.
  { intros [= <-]. now left. }
  destruct (String.eqb_spec (lower_string (Text.strip l)) "compound")
    as [E | _]; [| discriminate].
  intros [= <-]. now right.
Qed.

Lemma first_accepted_cases {A : Type} (accept : string -> option A) :
  forall lines a rest,
    first_accepted accept lines = Some (a, rest) ->
    exists l, In l lines /\ accept l = Some a.
Proof.
  induction lines as [| l lines IH]; simpl; [discriminate |].
  intros a rest. destruct (accept l) as [a0 |] eqn:Ha.
  - intros [= <- <-]. eauto.
  - intros H. destruct (IH _ _ H) as [l0 [Hin Hl0]]. eauto.
Qed.

(** X11: the question about the kind of interest ends in one of three ways
    only: it returns "simple", it returns "compound", or standard input
    ran out ([EOFError]).  What it returns is the first line that, stripped
    and in lower case, is one of the two words; the lines after it are left
    unread. *)
Theorem read_interest_type_first_valid :
  forall lines out,
    (exists out',
        read_interest_type (mkWorld lines out)
        = match first_accepted accepts_interest_type lines with
          | Some (interest_type, rest) =>
              (Return interest_type, mkWorld rest (out ++ out'))
          | None => (Raise EOFError, mkWorld [] (out ++ out'))
          end)
    /\ (fst (read_interest_type (mkWorld lines out)) = Return "simple"%string
        \/ fst (read_interest_type (mkWorld lines out))
           = Return "compound"%string
        \/ fst (read_interest_type (mkWorld lines out)) = Raise EOFError).
Proof.
  intros lines out.
  destruct (interest_type_search lines out) as [out' H].
  split; [now exists out' |].
  unfold read_interest_type. cbn [stdin stdout]. rewrite H.
  destruct (first_accepted accepts_interest_type lines) as [[t rest] |] eqn:Hf.
  - destruct (first_accepted_cases _ _ _ _ Hf) as [l [_ Hl]].
    destruct (accepts_interest_type_cases _ _ Hl) as [-> | ->]; auto.
  - auto.
Qed.

Lemma accepts_positive_value (l : string) (v : pyfloat) :
  accepts_positive l = Some v -> Float.le v (Fin 0) = false.
Proof.
  unfold accepts_positive. destruct (float_of_string l) as [value | e];
    [| discriminate].
  destruct (Float.le value (Fin 0)) eqn:Hle; [discriminate |].
  now intros [= <-].
Qed.

Lemma accepts_rate_value (l : string) (v : pyfloat) :
  accepts_rate l = Some v -> Float.le v (Fin 0) = false.
Proof.
  unfold accepts_rate. destruct (Text.contains "%" (Text.strip l));
    [discriminate | apply accepts_positive_value].
Qed.

Lemma get_positive_float_value prompt w v w' :
  get_positive_float prompt w = (Return v, w') -> Float.le v (Fin 0) = false.
Proof.
  destruct w as [lines out].
  destruct (get_positive_float_search prompt lines out) as [out' H].
  unfold get_positive_float. cbn [stdin stdout]. rewrite H.
  destruct (first_accepted accepts_positive lines) as [[a rest] |] eqn:Hf;
    [| discriminate].
  intros [= <- _]. destruct (first_accepted_cases _ _ _ _ Hf) as [l [_ Hl]].
  now apply accepts_positive_value in Hl.
Qed.

Lemma get_interest_rate_value prompt w v w' :
  get_interest_rate prompt w = (Return v, w') -> Float.le v (Fin 0) = false.
Proof.
  destruct w as [lines out].
  destruct (get_interest_rate_search prompt lines out) as [out' H].
  unfold get_interest_rate. cbn [stdin stdout]. rewrite H.
  destruct (first_accepted accepts_rate lines) as [[a rest] |] eqn:Hf;
    [| discriminate].
  intros [= <- _]. destruct (first_accepted_cases _ _ _ _ Hf) as [l [_ Hl]].
  now apply accepts_rate_value in Hl.
Qed.

(** X12: a value returned by either reader is greater than zero (possibly
    the positive infinity) or is NaN; it is never zero or negative. *)
Theorem readers_return_positive_or_nan :
  forall prompt w v w',
    get_positive_float prompt w = (Return v, w')
    \/ get_interest_rate prompt w = (Return v, w') ->
    Float.gt v (Fin 0) = true \/ v = NaN.
Proof.
  intros prompt w v w' [H | H]; apply not_le_zero.
  - now apply get_positive_float_value in H.
  - now apply get_interest_rate_value in H.
Qed.

Lemma readers_return_positive_or_nan_witness :
  (get_positive_float "Enter: " (mkWorld ["-3"; "abc"; "5"; "9"]%string [])
   = (Return (Fin 5),
      mkWorld ["9"%string]
        [Text "Enter: "; Text "Please enter a greater number than zero.";
         Text "Enter: "; Text "Invalid input. Please enter numeric value.";
         Text "Enter: "])
   \/ get_interest_rate "Enter: "
        (mkWorld ["-3"; "abc"; "5"; "9"]%string [])
      = (Return (Fin 5),
         mkWorld ["9"%string]
           [Text "Enter: "; Text "Please enter a greater number than zero.";
            Text "Enter: "; Text "Invalid input. Please enter numeric value.";
            Text "Enter: "]))
  /\ (Float.gt (Fin 5) (Fin 0) = true \/ Fin 5 = NaN).
Proof.
  assert (H : get_positive_float "Enter: "
                (mkWorld ["-3"; "abc"; "5"; "9"]%string [])
              = (Return (Fin 5),
                 mkWorld ["9"%string]
                   [Text "Enter: ";
                    Text "Please enter a greater number than zero.";
                    Text "Enter: ";
                    Text "Invalid input. Please enter numeric value.";
                    Text "Enter: "])).
  { unfold get_positive_float. cbn [stdin stdout get_positive_float_loop].
    assert (H3 : float_of_string "-3" = Return (Fin (- 3))).
    { unfold float_of_string.
      replace (Literal.parse "-3") with (Some (LDec true 3 0))
        by (vm_compute; reflexivity).
      simpl. do 2 f_equal. lra. }
    assert (Ha : float_of_string "abc" = Raise ValueError).
    { unfold float_of_string.
      replace (Literal.parse "abc") with (@None literal)
        by (vm_compute; reflexivity).
      reflexivity. }
    rewrite H3, Ha, float_of_string_5.
    rewrite le_zero_true by lra. rewrite le_zero_false by lra.
    reflexivity. }
  split; [left; exact H |].
  exact (readers_return_positive_or_nan _ _ _ _ (or_introl H)).
Defined.

(** * The handlers *)

Lemma get_positive_float_outcome prompt w :
  (exists v w', get_positive_float prompt w = (Return v, w')
                /\ Float.le v (Fin 0) = false)
  \/ (exists w', get_positive_float prompt w = (Raise EOFError, w')).
Proof.
  destruct w as [lines out].
  destruct (get_positive_float_search prompt lines out) as [out' H].
  change (get_positive_float_loop prompt lines out)
    with (get_positive_float prompt (mkWorld lines out)) in H.
  destruct (first_accepted accepts_positive lines) as [[v rest] |] eqn:Hf.
  - left. exists v. eexists. split; [exact H |].
    now apply (get_positive_float_value _ _ _ _ H).
  - right. eexists. exact H.
Qed.

Lemma get_interest_rate_outcome prompt w :
  (exists v w', get_interest_rate prompt w = (Return v, w')
                /\ Float.le v (Fin 0) = false)
  \/ (exists w', get_interest_rate prompt w = (Raise EOFError, w')).
Proof.
  destruct w as [lines out].
  destruct (get_interest_rate_search prompt lines out) as [out' H].
  change (get_interest_rate_loop prompt lines out)
    with (get_interest_rate prompt (mkWorld lines out)) in H.
  destruct (first_accepted accepts_rate lines) as [[v rest] |] eqn:Hf.
  - left. exists v. eexists. split; [exact H |].
    now apply (get_interest_rate_value _ _ _ _ H).
  - right. eexists. exact H.
Qed.

Lemma read_interest_type_outcome w :
  (exists t w', read_interest_type w = (Return t, w'))
  \/ (exists w', read_interest_type w = (Raise EOFError, w')).
Proof.
  destruct w as [lines out].
  destruct (interest_type_search lines out) as [out' H].
  unfold read_interest_type. cbn [stdin stdout]. rewrite H.
  destruct (first_accepted accepts_interest_type lines) as [[t rest] |];
    eauto.
Qed.

Lemma le_zero_false_inv (x : R) : Float.le (Fin x) (Fin 0) = false -> 0 < x.
Proof.
  simpl. unfold Rleb. destruct (Rle_dec x 0); [discriminate | lra].
Qed.

Ltac read_positive :=
  unfold io_bind at 1;
  match goal with
  | |- context [get_positive_float ?p ?w] =>
      let v := fresh "v" in
      let w' := fresh "w" in
      let Hv := fresh "Hv" in
      destruct (get_positive_float_outcome p w)
        as [[v [w' [-> Hv]]] | [w' ->]]
  end.

Ltac read_rate :=
  unfold io_bind at 1;
  match goal with
  | |- context [get_interest_rate ?p ?w] =>
      let v := fresh "v" in
      let w' := fresh "w" in
      let Hv := fresh "Hv" in
      destruct (get_interest_rate_outcome p w)
        as [[v [w' [-> Hv]]] | [w' ->]]
  end.

Ltac read_type :=
  unfold io_bind at 1;
  match goal with
  | |- context [read_interest_type ?w] =>
      let t := fresh "t" in
      let w' := fresh "w" in
      destruct (read_interest_type_outcome w) as [[t [w' ->]] | [w' ->]]
  end.

(** X13: the guard of [handle_bond] never fires.  Whatever standard input
    holds, the handler does not take the branch that prints "Invalid input:
    months and interest rate must be > 0." and returns early: what the
    readers return is never [<= 0]. *)
Theorem handle_bond_guard_unreachable :
  forall w : world, fst (handle_bond_inputs w) <> Return None.
Proof.
  intros w. unfold handle_bond_inputs.
  unfold io_bind at 1. unfold print, write.
  read_positive; [| discriminate].
  read_rate; [| discriminate].
  cbv zeta. read_positive; [| discriminate].
  rewrite Hv1, Hv0. cbn [orb].
  unfold io_bind, lift, io_ret. destruct (Float.to_int v1); discriminate.
Qed.

Lemma accepts_positive_spec (l : string) (v : pyfloat) :
  accepts_positive l = Some v <->
  float_of_string l = Return v /\ Float.le v (Fin 0) = false.
Proof.
  unfold accepts_positive. destruct (float_of_string l) as [value | e].
  - destruct (Float.le value (Fin 0)) eqn:Hle; split.
    + discriminate.
    + intros [[= ->] H]. congruence.
    + intros [= ->]. auto.
    + intros [[= ->] _]. reflexivity.
  - split; [discriminate | intros [H _]; discriminate].
Qed.

Lemma get_positive_float_accepts prompt l rest out v :
  accepts_positive l = Some v ->
  get_positive_float prompt (mkWorld (l :: rest) out)
  = (Return v, mkWorld rest (say out prompt)).
Proof.
  intros H. apply accepts_positive_spec in H as [Hp Hv].
  now apply get_positive_float_accept.
Qed.

Lemma get_interest_rate_accepts prompt l rest out v :
  accepts_rate l = Some v ->
  get_interest_rate prompt (mkWorld (l :: rest) out)
  = (Return v, mkWorld rest (say out prompt)).
Proof.
  unfold accepts_rate.
  destruct (Text.contains "%" (Text.strip l)) eqn:Hc; [discriminate |].
  intros H. apply accepts_positive_spec in H as [Hp Hv].
  unfold get_interest_rate. simpl. now rewrite Hc, Hp, Hv.
Qed.

Lemma trunc_below_one (M : R) : 0 < M -> M < 1 -> Float.trunc M = 0%Z.
Proof.
  intros H0 H1. unfold Float.trunc.
  destruct (Rle_dec 0 M) as [_ | H]; [| lra].
  symmetry. apply Int_part_spec. lra.
Qed.

Lemma handle_bond_inputs_run l1 l2 l3 rest out hv rate months :
  accepts_positive l1 = Some hv ->
  accepts_rate l2 = Some rate ->
  accepts_positive l3 = Some months ->
  handle_bond_inputs (mkWorld (l1 :: l2 :: l3 :: rest) out)
  = match Float.to_int months with
    | Return n =>
        (Return (Some (hv, rate, n)),
         mkWorld rest
           (out ++ [Text (nl ++ "Bond Repayment Calculator:")%string;
                    Text "Enter current value of the house: £";
                    Text "Enter annual interest rate (i.e. 7 for 7%): ";
                    Text "Enter how many months you want to repay the bond: "]))
    | Raise e =>
        (Raise e,
         mkWorld rest
           (out ++ [Text (nl ++ "Bond Repayment Calculator:")%string;
                    Text "Enter current value of the house: £";
                    Text "Enter annual interest rate (i.e. 7 for 7%): ";
                    Text "Enter how many months you want to repay the bond: "]))
    end.
Proof.
  intros H1 H2 H3. unfold handle_bond_inputs.
  unfold io_bind at 1. unfold print, write. cbn [stdin stdout].
  rewrite (io_bind_return _ _ _ _ _ (get_positive_float_accepts _ _ _ _ _ H1)).
  rewrite (io_bind_return _ _ _ _ _ (get_interest_rate_accepts _ _ _ _ _ H2)).
  cbv zeta.
  rewrite (io_bind_return _ _ _ _ _ (get_positive_float_accepts _ _ _ _ _ H3)).
  rewrite (accepts_positive_value _ _ H3), (accepts_rate_value _ _ H2).
  cbn [orb]. unfold io_bind, lift, io_ret, say.
  rewrite <- !app_assoc. cbn [app].
  destruct (Float.to_int months); reflexivity.
Qed.

Lemma handle_bond_run :
  forall l1 l2 l3 rest out hv rate months,
    accepts_positive l1 = Some hv ->
    accepts_rate l2 = Some rate ->
    accepts_positive l3 = Some months ->
    let w := mkWorld (l1 :: l2 :: l3 :: rest) out in
    let w' :=
      mkWorld rest
        (out ++ [Text (nl ++ "Bond Repayment Calculator:")%string;
                 Text "Enter current value of the house: £";
                 Text "Enter annual interest rate (i.e. 7 for 7%): ";
                 Text "Enter how many months you want to repay the bond: "]) in
    match months with
    | Fin M => M < 1 -> handle_bond w = (Raise ZeroDivisionError, w')
    | Inf _ => handle_bond w = (Raise OverflowError, w')
    | NaN => handle_bond w = (Raise ValueError, w')
    end.
Proof.
  intros l1 l2 l3 rest out hv rate months H1 H2 H3 w w'.
  pose proof (handle_bond_inputs_run _ _ _ rest out _ _ _ H1 H2 H3) as Hin.
  fold w in Hin. fold w' in Hin.
  pose proof (accepts_positive_value _ _ H3) as Hm.
  unfold handle_bond. destruct months as [M | s |]; cbn [Float.to_int] in Hin.
  - apply le_zero_false_inv in Hm.
    intros HM. rewrite (trunc_below_one M Hm HM) in Hin.
    rewrite (io_bind_return _ _ _ _ _ Hin). unfold io_bind, lift.
    now rewrite bond_zero_months_raises.
  - unfold io_bind. now rewrite Hin.
  - unfold io_bind. now rewrite Hin.
Qed.

(** X14: three accepted lines whose number of months is below one, or is not
    finite, end [handle_bond] with an exception, whatever the house value
    and the rate are.  Below one month [int(months)] is 0 and the formula
    divides by zero; on NaN [int(months)] raises [ValueError] and on an
    infinite value [OverflowError].  In every case the three lines are
    consumed and nothing but the heading and the three prompts is
    written. *)
Theorem handle_bond_outcome :
  forall l1 l2 l3 rest out hv rate months,
    accepts_positive l1 = Some hv ->
    accepts_rate l2 = Some rate ->
    accepts_positive l3 = Some months ->
    let w := mkWorld (l1 :: l2 :: l3 :: rest) out in
    let w' :=
      mkWorld rest
        (out ++ [Text (nl ++ "Bond Repayment Calculator:")%string;
                 Text "Enter current value of the house: £";
                 Text "Enter annual interest rate (i.e. 7 for 7%): ";
                 Text "Enter how many months you want to repay the bond: "]) in
    match months with
    | Fin M => M < 1 -> handle_bond w = (Raise ZeroDivisionError, w')
    | Inf _ => handle_bond w = (Raise OverflowError, w')
    | NaN => handle_bond w = (Raise ValueError, w')
    end.
Proof. exact handle_bond_run. Qed.

Ltac accept_decimal m e :=
  apply accepts_positive_spec; split;
  [ unfold float_of_string;
    replace (Literal.parse _) with (Some (LDec false m e))
      by (vm_compute; reflexivity);
    simpl; do 2 f_equal; lra
  | apply le_zero_false; lra ].

Ltac accept_rate_decimal l m e :=
  unfold accepts_rate;
  replace (Text.strip l) with l by (vm_compute; reflexivity);
  replace (Text.contains "%" l) with false by (vm_compute; reflexivity);
  accept_decimal m e.

Lemma handle_bond_outcome_witness :
  accepts_positive "200000" = Some (Fin 200000)
  /\ accepts_rate "7" = Some (Fin 7)
  /\ accepts_positive "0.5" = Some (Fin (5 / 10))
  /\ (5 / 10 < 1 ->
      handle_bond (mkWorld ["200000"; "7"; "0.5"]%string [])
      = (Raise ZeroDivisionError,
         mkWorld []
           ([] ++ [Text (nl ++ "Bond Repayment Calculator:")%string;
                   Text "Enter current value of the house: £";
                   Text "Enter annual interest rate (i.e. 7 for 7%): ";
                   Text "Enter how many months you want to repay the bond: "]))).
Proof.
  assert (H1 : accepts_positive "200000" = Some (Fin 200000))
    by accept_decimal 200000%Z 0%Z.
  assert (H2 : accepts_rate "7" = Some (Fin 7))
    by accept_rate_decimal "7"%string 7%Z 0%Z.
  assert (H3 : accepts_positive "0.5" = Some (Fin (5 / 10)))
    by accept_decimal 5%Z (-1)%Z.
  split; [exact H1 | split; [exact H2 | split; [exact H3 |]]].
  exact (handle_bond_outcome _ _ _ [] [] _ _ _ H1 H2 H3).
Defined.

(** * Reading forward: the frame of every action *)

Lemma advances_refl (w : world) : advances w w.
Proof. split; [now exists [] | exists []; now rewrite app_nil_r]. Qed.

Lemma advances_trans (w1 w2 w3 : world) :
  advances w1 w2 -> advances w2 w3 -> advances w1 w3.
Proof.
  intros [[r1 Hr1] [o1 Ho1]] [[r2 Hr2] [o2 Ho2]]. split.
  - exists (r1 ++ r2). now rewrite Hr1, Hr2, app_assoc.
  - exists (o1 ++ o2). now rewrite Ho2, Ho1, app_assoc.
Qed.

Lemma advances_length (w w' : world) :
  advances w w' -> (List.length (stdin w') <= List.length (stdin w))%nat.
Proof. intros [[r Hr] _]. rewrite Hr, length_app. lia. Qed.

Lemma advances_In (w w' : world) (l : string) :
  advances w w' -> In l (stdin w') -> In l (stdin w).
Proof. intros [[r Hr] _] H. rewrite Hr. apply in_or_app. now right. Qed.

Lemma framed_ret {A : Type} (a : A) : framed (io_ret a).
Proof. intros w r w' [= _ <-]. apply advances_refl. Qed.

Lemma framed_lift {A : Type} (m : outcome A) : framed (lift m).
Proof. intros w r w' [= _ <-]. apply advances_refl. Qed.

Lemma framed_write (o : out_item) : framed (write o).
Proof.
  intros w r w' [= _ <-]. split; [now exists [] | now exists [o]].
Qed.

Lemma framed_bind {A B : Type} (m : io A) (k : A -> io B) :
  framed m -> (forall a, framed (k a)) -> framed (io_bind m k).
Proof.
  intros Hm Hk w r w'. unfold io_bind.
  destruct (m w) as [[a | e] w1] eqn:Hmw.
  - intros H. apply (advances_trans _ w1); [now apply (Hm _ _ _ Hmw) |].
    now apply (Hk a _ _ _ H).
  - intros [= _ <-]. now apply (Hm _ _ _ Hmw).
Qed.

Lemma first_accepted_suffix {A : Type} (accept : string -> option A) :
  forall lines a rest,
    first_accepted accept lines = Some (a, rest) ->
    exists read, lines = read ++ rest.
Proof.
  induction lines as [| l lines IH]; simpl; [discriminate |].
  intros a rest. destruct (accept l).
  - intros [= _ <-]. now exists [l].
  - intros H. destruct (IH _ _ H) as [read ->]. now exists (l :: read).
Qed.

Lemma framed_get_positive_float prompt : framed (get_positive_float prompt).
Proof.
  intros [lines out] r w'. unfold get_positive_float. cbn [stdin stdout].
  destruct (get_positive_float_search prompt lines out) as [out' ->].
  destruct (first_accepted accepts_positive lines) as [[v rest] |] eqn:Hf;
    intros [= _ <-]; (split; [| eexists; reflexivity]); cbn [stdin].
  - now apply first_accepted_suffix in Hf.
  - exists lines. now rewrite app_nil_r.
Qed.

Lemma framed_get_interest_rate prompt : framed (get_interest_rate prompt).
Proof.
  intros [lines out] r w'. unfold get_interest_rate. cbn [stdin stdout].
  destruct (get_interest_rate_search prompt lines out) as [out' ->].
  destruct (first_accepted accepts_rate lines) as [[v rest] |] eqn:Hf;
    intros [= _ <-]; (split; [| eexists; reflexivity]); cbn [stdin].
  - now apply first_accepted_suffix in Hf.
  - exists lines. now rewrite app_nil_r.
Qed.

Lemma framed_read_interest_type : framed read_interest_type.
Proof.
  intros [lines out] r w'. unfold read_interest_type. cbn [stdin stdout].
  destruct (interest_type_search lines out) as [out' ->].
  destruct (first_accepted accepts_interest_type lines) as [[v rest] |] eqn:Hf;
    intros [= _ <-]; (split; [| eexists; reflexivity]); cbn [stdin].
  - now apply first_accepted_suffix in Hf.
  - exists lines. now rewrite app_nil_r.
Qed.

Lemma framed_handle_bond : framed handle_bond.
Proof.
  unfold handle_bond, handle_bond_inputs, print.
  repeat first
    [ apply framed_bind; [| intros ?]
    | apply framed_write
    | apply framed_get_positive_float
    | apply framed_get_interest_rate
    | apply framed_lift
    | apply framed_ret
    | match goal with
      | |- framed (if ?b then _ else _) => destruct b
      | |- framed (match ?a with Some _ => _ | None => _ end) =>
          destruct a as [[[? ?] ?] |]
      end
    | cbv zeta ].
Qed.

Lemma framed_handle_investment f0 f2 : framed (handle_investment f0 f2).
Proof.
  unfold handle_investment, print.
  repeat first
    [ apply framed_bind; [| intros ?]
    | apply framed_write
    | apply framed_get_positive_float
    | apply framed_get_interest_rate
    | apply framed_read_interest_type
    | apply framed_lift
    | cbv zeta ].
Qed.

Lemma menu_run (w : world) :
  menu w
  = match stdin w with
    | [] => (Raise EOFError, mkWorld [] (stdout w ++ menu_text))
    | line :: rest => (Return line, mkWorld rest (stdout w ++ menu_text))
    end.
Proof.
  unfold menu, io_bind, print, write, input, say, menu_text.
  cbn [stdin stdout]. rewrite <- !app_assoc. cbn [app].
  destruct (stdin w); reflexivity.
Qed.

(** * The menu loop *)

Section MainLoop.

Variables format_0f format_2f : pyfloat -> string.

Let loop := main_loop format_0f format_2f.
Let farewell : out_item :=
  Text (nl ++ "Thank you for using Financial Calculator. Goodbye!")%string.

Lemma main_loop_total :
  forall fuel w,
    (List.length (stdin w) < fuel)%nat -> exists res, loop fuel w = Some res.
Proof.
  induction fuel as [| fuel IH]; intros w Hlen; [lia |].
  unfold loop. cbn [main_loop]. rewrite menu_run.
  destruct (stdin w) as [| line rest] eqn:Hw; [eauto |].
  simpl in Hlen.
  set (w1 := mkWorld rest (stdout w ++ menu_text)).
  assert (Hcont : forall w2, advances w1 w2 ->
                    exists res, loop fuel w2 = Some res).
  { intros w2 Hadv. apply IH. apply advances_length in Hadv.
    unfold w1 in Hadv. cbn [stdin] in Hadv. lia. }
  destruct (String.eqb (lower_string (Text.strip line)) "investment").
  { destruct (handle_investment format_0f format_2f w1) as [[[] | e] w2]
      eqn:Hh; [| eauto].
    apply Hcont. now apply (framed_handle_investment _ _ _ _ _ Hh). }
  destruct (String.eqb (lower_string (Text.strip line)) "bond").
  { destruct (handle_bond w1) as [[[] | e] w2] eqn:Hh; [| eauto].
    apply Hcont. now apply (framed_handle_bond _ _ _ Hh). }
  destruct (String.eqb (lower_string (Text.strip line)) "exit"); [eauto |].
  apply Hcont, advances_refl.
Qed.

Lemma main_loop_more_fuel :
  forall fuel w res,
    loop fuel w = Some res ->
    forall fuel', (fuel <= fuel')%nat -> loop fuel' w = Some res.
Proof.
  induction fuel as [| fuel IH]; intros w res H fuel' Hle; [discriminate |].
  destruct fuel' as [| fuel']; [lia |].
  unfold loop in *. cbn [main_loop] in *.
  destruct (menu w) as [[line | e] w1]; [| exact H].
  destruct (String.eqb (lower_string (Text.strip line)) "investment").
  { destruct (handle_investment format_0f format_2f w1) as [[[] | e] w2];
      [| exact H].
    apply (IH _ _ H). lia. }
  destruct (String.eqb (lower_string (Text.strip line)) "bond").
  { destruct (handle_bond w1) as [[[] | e] w2]; [| exact H].
    apply (IH _ _ H). lia. }
  destruct (String.eqb (lower_string (Text.strip line)) "exit"); [exact H |].
  apply (IH _ _ H). lia.
Qed.

Lemma main_loop_return :
  forall fuel w w',
    loop fuel w = Some (Return tt, w') ->
    (exists line, In line (stdin w) /\ command line = "exit"%string)
    /\ exists written, stdout w' = written ++ [farewell].
Proof.
  induction fuel as [| fuel IH]; intros w w' H; [discriminate |].
  unfold loop in H. cbn [main_loop] in H. rewrite menu_run in H.
  destruct (stdin w) as [| line rest] eqn:Hw; [discriminate |].
  set (w1 := mkWorld rest (stdout w ++ menu_text)) in *.
  assert (Hcont : forall w2, advances w1 w2 ->
               loop fuel w2 = Some (Return tt, w') ->
               (exists l, In l (line :: rest) /\ command l = "exit"%string)
               /\ exists written, stdout w' = written ++ [farewell]).
  { intros w2 Hadv H2. destruct (IH _ _ H2) as [[l [Hin Hl]] Hout].
    split; [| exact Hout]. exists l. split; [| exact Hl].
    right. now apply (advances_In w1 w2). }
  destruct (String.eqb (lower_string (Text.strip line)) "investment").
  { destruct (handle_investment format_0f format_2f w1) as [[[] | e] w2]
      eqn:Hh; [| discriminate].
    apply (Hcont w2); [| exact H].
    now apply (framed_handle_investment _ _ _ _ _ Hh). }
  destruct (String.eqb (lower_string (Text.strip line)) "bond").
  { destruct (handle_bond w1) as [[[] | e] w2] eqn:Hh; [| discriminate].
    apply (Hcont w2); [| exact H]. now apply (framed_handle_bond _ _ _ Hh). }
  destruct (String.eqb_spec (lower_string (Text.strip line)) "exit")
    as [He | _].
  - injection H as <-. split.
    + exists line. split; [now left | exact He].
    + eexists. reflexivity.
  - apply (Hcont w1); [apply advances_refl | exact H].
Qed.

Lemma main_loop_skips (line : string) (rest : list string) :
  command line = "exit"%string ->
  forall ignored fuel out,
    Forall (fun l => command l <> "investment"%string
                     /\ command l <> "bond"%string
                     /\ command l <> "exit"%string) ignored ->
    (List.length ignored < fuel)%nat ->
    loop fuel (mkWorld (ignored ++ line :: rest) out)
    = Some (Return tt,
            mkWorld rest
              (out ++ List.concat (map (fun _ => menu_text) ignored)
                   ++ menu_text ++ [farewell])).
Proof.
  intros Hexit. unfold command in Hexit.
  induction ignored as [| l ignored IH]; intros fuel out Hall Hlen.
  - destruct fuel as [| fuel]; [simpl in Hlen; lia |].
    unfold loop. cbn [main_loop app]. rewrite menu_run. cbn [stdin stdout].
    rewrite Hexit. cbn [String.eqb]. unfold print, write.
    cbn [stdin stdout List.concat map app].
    now rewrite <- app_assoc.
  - destruct fuel as [| fuel]; [simpl in Hlen; lia |].
    inversion Hall as [| ? ? [Hi [Hb He]] Hall']; subst.
    unfold command in *.
    unfold loop. cbn [main_loop app]. rewrite menu_run. cbn [stdin stdout].
    apply String.eqb_neq in Hi, Hb, He. rewrite Hi, Hb, He.
    fold loop. rewrite (IH fuel _ Hall') by (simpl in Hlen; lia).
    cbn [List.concat map]. now rewrite <- !app_assoc.
Qed.

(** X18: on a finite standard input [main] always ends: one turn of the
    menu per line and one more are enough whatever the lines are, and
    allowing more turns changes nothing. *)
Theorem main_terminates :
  forall w : world,
    exists res,
      main format_0f format_2f w = Some res
      /\ forall fuel,
          (S (List.length (stdin w)) <= fuel)%nat ->
          main_loop format_0f format_2f fuel
            (snd (print ("Welcome to your Financial Calculator!" ++ nl) w))
          = Some res.
Proof.
  intros w. unfold main.
  destruct (main_loop_total (S (List.length (stdin w)))
              (snd (print ("Welcome to your Financial Calculator!" ++ nl) w))
              ltac:(cbn; lia)) as [res Hres].
  exists res. split; [exact Hres |].
  intros fuel Hle. now apply (main_loop_more_fuel _ _ _ Hres).
Qed.

(** X19: [main] ends normally only through the exit command: if it returns,
    some line of standard input is "exit" once stripped and put in lower
    case, and the last thing written is the farewell.  Without such a line
    the run ends with an exception. *)
Theorem main_returns_only_on_exit :
  forall w w',
    main format_0f format_2f w = Some (Return tt, w') ->
    (exists line, In line (stdin w) /\ command line = "exit"%string)
    /\ exists written,
        stdout w'
        = written
          ++ [Text (nl ++ "Thank you for using Financial Calculator. Goodbye!")%string].
Proof.
  intros w w' H. unfold main in H.
  now apply main_loop_return in H.
Qed.

(** X20: commands that are not recognised are ignored without a word.  When
    standard input starts with lines that are none of the three commands,
    followed by an exit command, [main] writes the welcome, the menu once
    for each of these lines and once more, then the farewell, and nothing
    else; it returns and leaves the lines after the exit command unread. *)
Theorem main_skips_unknown_then_exits :
  forall ignored line rest out,
    Forall (fun l => command l <> "investment"%string
                     /\ command l <> "bond"%string
                     /\ command l <> "exit"%string) ignored ->
    command line = "exit"%string ->
    main format_0f format_2f (mkWorld (ignored ++ line :: rest) out)
    = Some (Return tt,
            mkWorld rest
              (out
               ++ [Text ("Welcome to your Financial Calculator!" ++ nl)%string]
               ++ List.concat (map (fun _ => menu_text) ignored)
               ++ menu_text
               ++ [Text (nl ++ "Thank you for using Financial Calculator. Goodbye!")%string])).
Proof.
  intros ignored line rest out Hall Hexit. unfold main, print, write.
  cbn [stdin stdout snd].
  fold loop. rewrite (main_loop_skips line rest Hexit ignored _ _ Hall).
  - now rewrite <- !app_assoc.
  - rewrite length_app. simpl. lia.
Qed.

(** X21: a failure of a handler ends the whole program.  On the bond command
    followed by three accepted lines of which the months are below one,
    [main] ends with [ZeroDivisionError] and the commands that follow are
    never read. *)
Theorem main_crashes_on_short_bond :
  forall l0 l1 l2 l3 rest out hv rate M,
    command l0 = "bond"%string ->
    accepts_positive l1 = Some hv ->
    accepts_rate l2 = Some rate ->
    accepts_positive l3 = Some (Fin M) ->
    M < 1 ->
    exists out',
      main format_0f format_2f (mkWorld (l0 :: l1 :: l2 :: l3 :: rest) out)
      = Some (Raise ZeroDivisionError, mkWorld rest out').
Proof.
  intros l0 l1 l2 l3 rest out hv rate M H0 H1 H2 H3 HM.
  unfold main, print, write. cbn [stdin stdout snd List.length main_loop].
  rewrite menu_run. cbn [stdin stdout]. unfold command in H0. rewrite H0.
  assert (Hne : String.eqb "bond" "investment" = false) by reflexivity.
  rewrite Hne.
  pose proof (handle_bond_run l1 l2 l3 rest
                ((out ++ [Text ("Welcome to your Financial Calculator!"
                                ++ nl)%string]) ++ menu_text)
                hv rate (Fin M) H1 H2 H3) as Hrun.
  cbv zeta in Hrun.
  assert (Hb : String.eqb "bond" "bond" = true) by reflexivity.
  rewrite Hb. rewrite (Hrun HM). eexists. reflexivity.
Qed.

End MainLoop.

Lemma main_returns_only_on_exit_witness :
  main (fun _ => "5"%string) (fun _ => "0.00"%string)
    (mkWorld [" Exit "; "bond"]%string [])
  = Some (Return tt,
          mkWorld ["bond"%string]
            ([Text ("Welcome to your Financial Calculator!" ++ nl)%string]
             ++ menu_text
             ++ [Text (nl ++ "Thank you for using Financial Calculator. Goodbye!")%string]))
  /\ (exists line,
         In line [" Exit "; "bond"]%string /\ command line = "exit"%string)
  /\ exists written,
      [Text ("Welcome to your Financial Calculator!" ++ nl)%string]
      ++ menu_text
      ++ [Text (nl ++ "Thank you for using Financial Calculator. Goodbye!")%string]
      = written
        ++ [Text (nl ++ "Thank you for using Financial Calculator. Goodbye!")%string].
Proof.
  assert (H : main (fun _ => "5"%string) (fun _ => "0.00"%string)
                (mkWorld [" Exit "; "bond"]%string [])
              = Some (Return tt,
                      mkWorld ["bond"%string]
                        ([Text ("Welcome to your Financial Calculator!"
                                ++ nl)%string]
                         ++ menu_text
                         ++ [Text (nl ++ "Thank you for using Financial Calculator. Goodbye!")%string])))
    by (vm_compute; reflexivity).
  split; [exact H |].
  exact (main_returns_only_on_exit _ _ _ _ H).
Defined.

Lemma main_skips_unknown_then_exits_witness :
  Forall (fun l => command l <> "investment"%string
                   /\ command l <> "bond"%string
                   /\ command l <> "exit"%string) ["help"; "quit"]%string
  /\ command " EXIT " = "exit"%string
  /\ main (fun _ => "5"%string) (fun _ => "0.00"%string)
       (mkWorld (["help"%string; "quit"%string]
                 ++ " EXIT "%string :: ["bond"%string]) [])
     = Some (Return tt,
             mkWorld ["bond"%string]
               ([]
                ++ [Text ("Welcome to your Financial Calculator!" ++ nl)%string]
                ++ List.concat (map (fun _ => menu_text) ["help"; "quit"]%string)
                ++ menu_text
                ++ [Text (nl ++ "Thank you for using Financial Calculator. Goodbye!")%string])).
Proof.
  assert (Hall : Forall (fun l => command l <> "investment"%string
                                  /\ command l <> "bond"%string
                                  /\ command l <> "exit"%string)
                   ["help"; "quit"]%string).
  { repeat constructor; intros H; vm_compute in H; discriminate. }
  assert (Hexit : command " EXIT " = "exit"%string) by (vm_compute; reflexivity).
  split; [exact Hall | split; [exact Hexit |]].
  exact (main_skips_unknown_then_exits _ _ _ _ ["bond"%string] [] Hall Hexit).
Defined.

Lemma main_crashes_on_short_bond_witness :
  command "Bond" = "bond"%string
  /\ accepts_positive "200000" = Some (Fin 200000)
  /\ accepts_rate "7" = Some (Fin 7)
  /\ accepts_positive "0.5" = Some (Fin (5 / 10))
  /\ 5 / 10 < 1
  /\ exists out',
      main (fun _ => "5"%string) (fun _ => "0.00"%string)
        (mkWorld ["Bond"; "200000"; "7"; "0.5"; "exit"]%string [])
      = Some (Raise ZeroDivisionError, mkWorld ["exit"%string] out').
Proof.
  assert (H0 : command "Bond" = "bond"%string) by (vm_compute; reflexivity).
  assert (H1 : accepts_positive "200000" = Some (Fin 200000))
    by accept_decimal 200000%Z 0%Z.
  assert (H2 : accepts_rate "7" = Some (Fin 7))
    by accept_rate_decimal "7"%string 7%Z 0%Z.
  assert (H3 : accepts_positive "0.5" = Some (Fin (5 / 10)))
    by accept_decimal 5%Z (-1)%Z.
  assert (HM : 5 / 10 < 1) by lra.
  split; [exact H0 | split; [exact H1 | split; [exact H2 | split;
    [exact H3 | split; [exact HM |]]]]].
  exact (main_crashes_on_short_bond _ _ _ _ _ _ ["exit"%string] [] _ _ _
           H0 H1 H2 H3 HM).
Defined.
